(** * Order duration and overdue status

    A shallow embedding of [tracker/utils/time_utils.py] and the proofs of
    its specified properties.

    The module works on Python [float]s (IEEE 754 binary64), on [datetime]
    and [timedelta] values of the standard library, and on three helpers of
    [django.utils.timezone].  Floats are the [spec_float]s of the Standard
    Library at precision 53 and maximal exponent 1024, so every rounding of
    the source is the rounding of the model. *)

From Stdlib Require Import ZArith Lia Bool String Ascii List DecimalString.
From Stdlib Require Import DecimalPos DecimalZ.
From Stdlib Require Import Floats.SpecFloat.
Import ListNotations.
Local Open Scope Z_scope.

(** ** Exceptions *)

Module Py.

Inductive exn := ValueError | OverflowError | TypeError | AttributeError.

Inductive result (A : Type) : Type :=
| Ok (a : A)
| Raise (e : exn).
Arguments Ok {A} a.
Arguments Raise {A} e.

Definition bind {A B : Type} (c : result A) (k : A -> result B) : result B :=
  match c with
  | Ok a => k a
  | Raise e => Raise e
  end.

Definition returns {A : Type} (c : result A) : bool :=
  match c with
  | Ok _ => true
  | Raise _ => false
  end.

End Py.
Import Py.

Notation "x <- c ;; k" := (Py.bind c (fun x => k))
  (at level 61, c at next level, right associativity).
Notation "' pat <- c ;; k" := (Py.bind c (fun pat => k))
  (at level 61, pat pattern, c at next level, right associativity).

(** ** Python floats *)

Module PyFloat.

Definition prec : Z := 53.
Definition emax : Z := 1024.

Definition float : Type := spec_float.

(** The operations of IEEE 754, rounded to nearest even.  Python raises
    ZeroDivisionError on a zero divisor; the module only divides by the
    constants [3600.0] and [60.0]. *)
Definition fdiv : float -> float -> float := SFdiv prec emax.
Definition fmul : float -> float -> float := SFmul prec emax.
Definition fsub : float -> float -> float := SFsub prec emax.
Definition flt : float -> float -> bool := SFltb.
Definition fle : float -> float -> bool := SFleb.
Definition fge (x y : float) : bool := SFleb y x.

(** [float(n)] for an [int n], rounded to nearest even; the conversion of
    an integer beyond the largest double is an [OverflowError]. *)
Definition float_of_Z (n : Z) : float := binary_normalize prec emax n 0 false.

Definition float_of_int (n : Z) : result float :=
  match float_of_Z n with
  | S754_infinity _ => Raise OverflowError
  | x => Ok x
  end.

(** [a / b] on two [int]s, [b] positive: the exact quotient rounded once,
    whatever the size of [a]. *)
Definition int_truediv (a b : positive) (neg : bool) : float :=
  SFdiv prec emax (S754_finite neg a 0) (S754_finite false b 0).

Definition Z_truediv (a : Z) (b : positive) : float :=
  match a with
  | Z0 => S754_zero false
  | Zpos p => int_truediv p b false
  | Zneg p => int_truediv p b true
  end.

(** [int(x)]: truncation towards zero. *)
Definition trunc_finite (m : positive) (e : Z) : Z :=
  match e with
  | Zneg p => Zpos m / 2 ^ Zpos p
  | _ => Zpos m * 2 ^ e
  end.

Definition int_of_float (x : float) : result Z :=
  match x with
  | S754_nan => Raise ValueError
  | S754_infinity _ => Raise OverflowError
  | S754_zero _ => Ok 0
  | S754_finite s m e => Ok (cond_Zopp s (trunc_finite m e))
  end.

(** The integer nearest to [n / d], ties to the even one. *)
Definition div_half_even (n d : Z) : Z :=
  let q := n / d in
  let r := n mod d in
  match 2 * r ?= d with
  | Lt => q
  | Eq => if Z.even q then q else q + 1
  | Gt => q + 1
  end.

(** [round(x, 2)]: [x] is rounded, as the exact binary value it is, to the
    nearest multiple of 1/100 (ties to even), and the decimal result is
    read back as the nearest double. *)
Definition hundredths (m : positive) (e : Z) : Z :=
  match e with
  | Zneg p => div_half_even (100 * Zpos m) (2 ^ Zpos p)
  | _ => 100 * Zpos m * 2 ^ e
  end.

Definition round2 (x : float) : float :=
  match x with
  | S754_finite s m e =>
      match hundredths m e with
      | Zpos n => int_truediv n 100 s
      | _ => S754_zero s
      end
  | _ => x
  end.

(** [math.modf], as [timedelta] uses it: the integral part as an [int] and
    the fractional part as a float of the sign of [x]. *)
Definition frac_finite (s : bool) (m : positive) (e : Z) : float :=
  match e with
  | Zneg p => binary_normalize prec emax (cond_Zopp s (Zpos m mod 2 ^ Zpos p)) e s
  | _ => S754_zero s
  end.

Definition modf (x : float) : result (Z * float) :=
  match x with
  | S754_nan => Raise ValueError
  | S754_infinity _ => Raise OverflowError
  | S754_zero s => Ok (0, x)
  | S754_finite s m e => Ok (cond_Zopp s (trunc_finite m e), frac_finite s m e)
  end.

Definition is_zero (x : float) : bool :=
  match x with
  | S754_zero _ => true
  | _ => false
  end.

Definition is_nan (x : float) : bool :=
  match x with
  | S754_nan => true
  | _ => false
  end.

Definition is_finite (x : float) : bool :=
  match x with
  | S754_zero _ | S754_finite _ _ _ => true
  | _ => false
  end.

(** The sign bit: set on negative numbers and on [-0.0]. *)
Definition signbit (x : float) : bool :=
  match x with
  | S754_zero s | S754_infinity s | S754_finite s _ _ => s
  | S754_nan => false
  end.

End PyFloat.
Import PyFloat.

(** [str(n)] for an [int]. *)
Definition str_of_int (n : Z) : string := NilZero.string_of_int (Z.to_int n).

(** ** [datetime] and [timedelta] *)

Module Datetime.

(** A [tzinfo] object.  [tz_id] stands for the identity of the object
    ([is] in Python); [tz_utcoffset] is its [utcoffset], in microseconds,
    at a wall-clock time and a [fold]. *)
Record tzinfo := mk_tzinfo { tz_id : N; tz_utcoffset : Z -> bool -> Z }.

Definition fixed_offset (id : N) (off : Z) : tzinfo := mk_tzinfo id (fun _ _ => off).

(** [datetime.timezone.utc] *)
Definition utc : tzinfo := fixed_offset 0 0.

(** A [datetime]: the wall-clock reading in microseconds since
    0001-01-01T00:00:00, the [fold] flag, and the [tzinfo] (absent on a
    naive value). *)
Record datetime := mk_datetime { wall : Z; fold : bool; tzinfo_of : option tzinfo }.

Definition us_per_second : Z := 1000000.
Definition us_per_minute : Z := 60 * us_per_second.
Definition us_per_hour : Z := 3600 * us_per_second.
Definition us_per_day : Z := 86400 * us_per_second.

(** [date.max.toordinal()] *)
Definition MAXORDINAL : Z := 3652059.

Definition days_before_year (year : Z) : Z :=
  let y := year - 1 in y * 365 + y / 4 - y / 100 + y / 400.

Definition is_leap (year : Z) : bool :=
  (year mod 4 =? 0) && (negb (year mod 100 =? 0) || (year mod 400 =? 0)).

Definition days_before_month (year month : Z) : Z :=
  nth (Z.to_nat month) [0; 0; 31; 59; 90; 120; 151; 181; 212; 243; 273; 304; 334] 0
  + (if (2 <? month) && is_leap year then 1 else 0).

Definition ymd2ord (year month day : Z) : Z :=
  days_before_year year + days_before_month year month + day.

(** [datetime(year, month, day, hour, minute, second, tzinfo=tz)] *)
Definition civil (year month day hour minute second : Z) (tz : option tzinfo) : datetime :=
  mk_datetime ((ymd2ord year month day - 1) * us_per_day + hour * us_per_hour
               + minute * us_per_minute + second * us_per_second) false tz.

Definition in_range (d : datetime) : bool :=
  (0 <=? wall d) && (wall d <? MAXORDINAL * us_per_day).

Definition utcoffset (d : datetime) : option Z :=
  option_map (fun tz => tz_utcoffset tz (wall d) (fold d)) (tzinfo_of d).

Definition same_tzinfo (a b : datetime) : bool :=
  match tzinfo_of a, tzinfo_of b with
  | None, None => true
  | Some t, Some u => N.eqb (tz_id t) (tz_id u)
  | _, _ => false
  end.

(** A [timedelta] is its number of microseconds; the constructor refuses a
    value of more than 999999999 days. *)
Definition timedelta : Type := Z.

Definition timedelta_ok (us : Z) : bool :=
  (-999999999 <=? us / us_per_day) && (us / us_per_day <=? 999999999).

Definition new_timedelta (us : Z) : result timedelta :=
  if timedelta_ok us then Ok us else Raise OverflowError.

(** [a - b] on two [datetime]s *)
Definition dt_sub (a b : datetime) : result timedelta :=
  let base := wall a - wall b in
  if same_tzinfo a b then Ok base
  else
    match utcoffset a, utcoffset b with
    | Some myoff, Some otoff => Ok (base + otoff - myoff)
    | None, None => Ok base
    | _, _ => Raise TypeError
    end.

(** [a <= b] on two [datetime]s *)
Definition dt_le (a b : datetime) : result bool :=
  if same_tzinfo a b then Ok (wall a <=? wall b)
  else
    match utcoffset a, utcoffset b with
    | Some myoff, Some otoff => Ok (wall a - myoff <=? wall b - otoff)
    | None, None => Ok (wall a <=? wall b)
    | _, _ => Raise TypeError
    end.

(** [d + td]: wall-clock arithmetic; the [tzinfo] is kept, [fold] is
    cleared, and a result outside years 1..9999 is an [OverflowError]. *)
Definition dt_add (d : datetime) (td : timedelta) : result datetime :=
  let r := mk_datetime (wall d + td) false (tzinfo_of d) in
  if in_range r then Ok r else Raise OverflowError.

(** [td.total_seconds()]: microseconds over [10**6], as an [int] division. *)
Definition total_seconds (td : timedelta) : float := Z_truediv td 1000000.

(** The rounding of the fractional microsecond that [timedelta] keeps aside:
    to the nearest integer, a tie going to the side that makes the total
    even. *)
Definition round_leftover (x_is_odd : bool) (leftover : float) : Z :=
  match leftover with
  | S754_finite s m e =>
      match e with
      | Zneg p =>
          match 2 * Zpos m ?= 2 ^ Zpos p with
          | Lt => 0
          | Eq => if x_is_odd then cond_Zopp s 1 else 0
          | Gt => cond_Zopp s (div_half_even (Zpos m) (2 ^ Zpos p))
          end
      | _ => cond_Zopp s (Zpos m * 2 ^ e)
      end
  | _ => 0
  end.

(** [timedelta(hours=h)] for a float [h]: the integral hours are converted
    exactly; the fractional hours are multiplied by 3.6e9 in floating point,
    the integral microseconds of the product are added and the rest is
    rounded. *)
Definition timedelta_of_hours (h : float) : result timedelta :=
  '(intpart, fracpart) <- modf h ;;
  let sum := intpart * us_per_hour in
  if is_zero fracpart then new_timedelta sum
  else
    '(whole, leftover) <- modf (fmul (float_of_Z us_per_hour) fracpart) ;;
    let x := sum + whole in
    new_timedelta (x + round_leftover (Z.odd x) leftover).

End Datetime.
Import Datetime.

(** ** [django.utils.timezone]

    The host framework supplies the clock and the current time zone.  Both
    are ambient: [clock] is what [timezone.now()] returns at the call,
    [current_timezone] is the zone of [timezone.get_current_timezone()]. *)

Module Timezone.

Record ambient := mk_ambient { current_timezone : tzinfo; clock : datetime }.

Definition now (amb : ambient) : datetime := clock amb.

(** [is_naive(value)]: [value.utcoffset() is None] *)
Definition is_naive (value : datetime) : bool :=
  match utcoffset value with
  | None => true
  | Some _ => false
  end.

(** [make_aware(value)]: [value.replace(tzinfo=get_current_timezone())] *)
Definition make_aware (amb : ambient) (value : datetime) : datetime :=
  mk_datetime (wall value) (fold value) (Some (current_timezone amb)).

End Timezone.

(** ** The module [tracker.utils.time_utils] *)

Module TimeUtils.

Definition OVERDUE_THRESHOLD_HOURS : Z := 9.

(** [is_order_overdue(started_at, now=None)] *)
Definition is_order_overdue (amb : Timezone.ambient)
  (started_at now : option datetime) : result bool :=
  match started_at with
  | None => Ok false
  | Some started_at =>
      let now := match now with
                 | None => Timezone.now amb
                 | Some n => n
                 end in
      let started_at := if Timezone.is_naive started_at
                        then Timezone.make_aware amb started_at else started_at in
      let now := if Timezone.is_naive now
                 then Timezone.make_aware amb now else now in
      delta <- dt_sub now started_at ;;
      let elapsed_hours := fdiv (total_seconds delta) (float_of_Z 3600) in
      Ok (fge elapsed_hours (float_of_Z OVERDUE_THRESHOLD_HOURS))
  end.

(** The order: the one field the module reads, and the rest of the object. *)
Record Order (F : Type) := mk_order { started_at : option datetime; other_fields : F }.
Arguments mk_order {F} _ _.
Arguments started_at {F} _.
Arguments other_fields {F} _.

(** The dictionary [get_order_overdue_status] returns. *)
Record OverdueStatus := mk_status {
  is_overdue : bool;
  hours_elapsed : float;
  overdue_by_hours : float
}.

Definition set_hours_elapsed (r : OverdueStatus) (v : float) : OverdueStatus :=
  mk_status (is_overdue r) v (overdue_by_hours r).
Definition set_is_overdue (r : OverdueStatus) (v : bool) : OverdueStatus :=
  mk_status v (hours_elapsed r) (overdue_by_hours r).
Definition set_overdue_by_hours (r : OverdueStatus) (v : float) : OverdueStatus :=
  mk_status (is_overdue r) (hours_elapsed r) v.

(** Code that runs against the order object: it receives the object and
    gives it back with its outcome. *)
Definition OrderM (F A : Type) : Type := Order F -> result A * Order F.

Definition ret {F A : Type} (a : A) : OrderM F A := fun o => (Ok a, o).

Definition lift {F A : Type} (c : result A) : OrderM F A := fun o => (c, o).

Definition bindM {F A B : Type} (c : OrderM F A) (k : A -> OrderM F B) : OrderM F B :=
  fun o =>
    match c o with
    | (Ok a, o') => k a o'
    | (Raise e, o') => (Raise e, o')
    end.

(** [order.started_at] *)
Definition read_started_at {F : Type} : OrderM F (option datetime) :=
  fun o => (Ok (started_at o), o).

(** [get_order_overdue_status(order)] *)
Definition get_order_overdue_status {F : Type} (amb : Timezone.ambient)
  : OrderM F OverdueStatus :=
  let result := mk_status false (S754_zero false) (S754_zero false) in
  bindM read_started_at (fun s =>
  match s with
  | None => ret result
  | Some _ =>
      let now := Timezone.now amb in
      bindM read_started_at (fun s' =>
      match s' with
      | None => lift (Raise AttributeError)
      | Some started_at =>
          let started_at := if Timezone.is_naive started_at
                            then Timezone.make_aware amb started_at else started_at in
          let now := if Timezone.is_naive now
                     then Timezone.make_aware amb now else now in
          bindM (lift (dt_sub now started_at)) (fun delta =>
          let elapsed_hours := fdiv (total_seconds delta) (float_of_Z 3600) in
          let result := set_hours_elapsed result (round2 elapsed_hours) in
          if fge elapsed_hours (float_of_Z OVERDUE_THRESHOLD_HOURS) then
            let result := set_is_overdue result true in
            let result := set_overdue_by_hours result
                            (round2 (fsub elapsed_hours (float_of_Z OVERDUE_THRESHOLD_HOURS))) in
            ret result
          else ret result)
      end)
  end).

(** The status alone, for an order given by value. *)
Definition overdue_status {F : Type} (amb : Timezone.ambient) (order : Order F)
  : result OverdueStatus :=
  fst (get_order_overdue_status amb order).

(** [format_hours(hours)] *)
Definition format_hours (hours : float) : result string :=
  if flt hours (float_of_Z 0) then Ok "0h"%string
  else
    total_minutes <- int_of_float (fmul hours (float_of_Z 60)) ;;
    let hours_part := total_minutes / 60 in
    let minutes_part := total_minutes mod 60 in
    if (hours_part =? 0) && (minutes_part =? 0) then Ok "0h"%string
    else if hours_part =? 0 then Ok (str_of_int minutes_part ++ "m")%string
    else if minutes_part =? 0 then Ok (str_of_int hours_part ++ "h")%string
    else Ok (str_of_int hours_part ++ "h " ++ str_of_int minutes_part ++ "m")%string.

(** The dictionary [estimate_completion_time] returns. *)
Record CompletionEstimate := mk_estimate {
  estimated_end : datetime;
  estimated_hours : float;
  formatted : string
}.

(** [estimate_completion_time(started_at, estimated_minutes=None)] *)
Definition estimate_completion_time (started_at : option datetime)
  (estimated_minutes : option Z) : result (option CompletionEstimate) :=
  match started_at with
  | None => Ok None
  | Some started_at =>
      let estimated_minutes := match estimated_minutes with
                               | None => OVERDUE_THRESHOLD_HOURS * 60
                               | Some m => m
                               end in
      minutes_f <- float_of_int estimated_minutes ;;
      let estimated_hours := fdiv minutes_f (float_of_Z 60) in
      td <- timedelta_of_hours estimated_hours ;;
      estimated_end <- dt_add started_at td ;;
      text <- format_hours estimated_hours ;;
      Ok (Some (mk_estimate estimated_end estimated_hours text))
  end.

End TimeUtils.
Import TimeUtils.

(** * Vocabulary

    The notions the statements and their proofs are written with.  None of
    them is part of the module. *)

(** ** Of the floating-point proofs *)

(** The exponent of the format for a number of [k] binary digits before
    the point. *)
Definition FE (k : Z) : Z := fexp prec emax k.

(** A shift record that has lost no bit so far. *)
Definition exact_record (mrs : shr_record) : Prop :=
  shr_r mrs = false /\ shr_s mrs = false.

(** The outcome of a rounding, from the rounded mantissa [m] at exponent [e]. *)
Definition finish (sx : bool) (m e : Z) : float :=
  match m with
  | Z0 => S754_zero sx
  | Zpos p => if e <=? emax - prec then S754_finite sx p e else S754_infinity sx
  | Zneg _ => S754_nan
  end.

(** The same outcome once the rounded mantissa [m1] is known to have at
    most 54 digits: a carry to [2^53] moves to the next exponent. *)
Definition round_result (sx : bool) (m1 E : Z) : float :=
  if m1 <? 2 ^ 53 then finish sx m1 E else finish sx (2 ^ 52) (E + 1).

(** [vle a p b q] states [a * 2^p <= b * 2^q] for exponents of any sign. *)
Definition vle (a p b q : Z) : Prop :=
  a * 2 ^ (p - Z.min p q) <= b * 2 ^ (q - Z.min p q).

(** A mantissa and an exponent as the format stores them. *)
Definition canonical (m e : Z) : Prop := FE (Zdigits2 m + e) = e.

(** [mag_ge s r mf ef]: [r] has sign [s] and magnitude at least [mf * 2^ef]. *)
Definition mag_ge (s : bool) (r : float) (mf ef : Z) : Prop :=
  r = S754_infinity s
  \/ exists m e, r = S754_finite s m e /\ canonical (Zpos m) e /\ vle mf ef (Zpos m) e.

(** [mag_le s r mf ef]: [r] has sign [s] and magnitude at most [mf * 2^ef]. *)
Definition mag_le (s : bool) (r : float) (mf ef : Z) : Prop :=
  r = S754_zero s
  \/ exists m e, r = S754_finite s m e /\ canonical (Zpos m) e /\ vle (Zpos m) e mf ef.

(** The exponent and the numerator of the quotient that [SFdiv] hands to
    the rounding. *)
Definition div_exp (mx : positive) (ex : Z) (my : positive) (ey : Z) : Z :=
  Z.min (FE (Zdigits2 (Zpos mx) + ex - (Zdigits2 (Zpos my) + ey))) (ex - ey).

Definition div_num (mx : positive) (ex : Z) (my : positive) (ey : Z) : Z :=
  Zpos mx * 2 ^ (ex - ey - div_exp mx ex my ey).

(** [has_sign s r]: [r] is a number of sign bit [s]. *)
Definition has_sign (s : bool) (r : float) : Prop :=
  match r with
  | S754_zero s' | S754_infinity s' | S754_finite s' _ _ => s' = s
  | S754_nan => False
  end.

(** The doubles the statements name: 0.07, 1.0, 9.0, 9.07, 10.0, 60.0 and
    3600.0. *)
Definition f0_07 : float := S754_finite false 5044031582654956 (-56).
Definition f1 : float := S754_finite false 4503599627370496 (-52).
Definition f9 : float := S754_finite false 5066549580791808 (-49).
Definition f9_07 : float := S754_finite false 5105956077531300 (-49).
Definition f10 : float := S754_finite false 5629499534213120 (-49).
Definition f60 : float := S754_finite false 8444249301319680 (-47).
Definition f3600 : float := S754_finite false 7916483719987200 (-41).

(** ** Of the specification *)

(** [td.total_seconds() / 3600.0], the elapsed hours of lines 39 and 77. *)
Definition hours_of (td : timedelta) : float :=
  fdiv (total_seconds td) (float_of_Z 3600).

(** Nine hours, in microseconds. *)
Definition nine_hours : Z := 9 * us_per_hour.

(** Eighteen seconds, the half of a hundredth of an hour, in microseconds. *)
Definition eighteen_seconds : Z := 18 * us_per_second.

(** The minutes of one week. *)
Definition one_week : Z := 7 * 24 * 60.

(** What lines 33-36 and 71-74 of the module do to a timestamp: a naive
    value is localised to the current time zone, an aware one is kept. *)
Definition ensure_aware (amb : Timezone.ambient) (d : datetime) : datetime :=
  if Timezone.is_naive d then Timezone.make_aware amb d else d.

Definition offset_of (d : datetime) : Z :=
  match utcoffset d with
  | Some off => off
  | None => 0
  end.

(** The point in time, in microseconds of UTC, that a timestamp denotes. *)
Definition instant (d : datetime) : Z := wall d - offset_of d.

(** [a - b] in microseconds on two aware timestamps: the difference of the
    wall clocks under one [tzinfo] object, the difference of the instants
    otherwise. *)
Definition aware_diff (a b : datetime) : Z :=
  if same_tzinfo a b then wall a - wall b else instant a - instant b.

(** [now - started_at] in microseconds, once both are aware. *)
Definition elapsed (amb : Timezone.ambient) (started_at now : datetime) : Z :=
  aware_diff (ensure_aware amb now) (ensure_aware amb started_at).

(** [t + timedelta(microseconds=td)], when it is in range. *)
Definition shifted (t : datetime) (td : timedelta) : datetime :=
  mk_datetime (wall t + td) false (tzinfo_of t).

(** Two aware timestamps are read faithfully when the arithmetic between
    them, by wall clock under one [tzinfo] object, agrees with their
    instants. *)
Definition faithful (a b : datetime) : bool :=
  implb (same_tzinfo a b) (offset_of a =? offset_of b).

(** The three timestamps of a question of monotonicity are compatible
    when, once aware, they all carry one [tzinfo] object, so that the
    runtime compares and subtracts them by wall clock throughout, or when
    any two of them that carry one [tzinfo] object have one UTC offset, so
    that it follows their instants throughout. *)
Definition compatible (amb : Timezone.ambient) (started_at now1 now2 : datetime) : bool :=
  (same_tzinfo (ensure_aware amb now1) (ensure_aware amb started_at)
   && same_tzinfo (ensure_aware amb now2) (ensure_aware amb started_at))
  || (faithful (ensure_aware amb now1) (ensure_aware amb started_at)
      && faithful (ensure_aware amb now2) (ensure_aware amb started_at)
      && faithful (ensure_aware amb now1) (ensure_aware amb now2)).

(** The status of an order whose elapsed time is [td] microseconds. *)
Definition status_of (td : timedelta) : OverdueStatus :=
  mk_status (nine_hours <=? td) (round2 (hours_of td))
    (if nine_hours <=? td
     then round2 (fsub (hours_of td) (float_of_Z OVERDUE_THRESHOLD_HOURS))
     else S754_zero false).

(** The rendering of a duration of [hours_part] hours and [minutes_part]
    minutes: ["Xh Ym"], ["Xh"], ["Ym"] or ["0h"], by the parts that are zero. *)
Definition render_duration (hours_part minutes_part : Z) : string :=
  match (hours_part =? 0)%Z, (minutes_part =? 0)%Z with
  | true, true => "0h"%string
  | true, false => (str_of_int minutes_part ++ "m")%string
  | false, true => (str_of_int hours_part ++ "h")%string
  | false, false => (str_of_int hours_part ++ "h " ++ str_of_int minutes_part ++ "m")%string
  end.

(** A bounded search: [P] on every integer from [lo] on, [n] of them. *)
Fixpoint all_from (lo : Z) (n : nat) (P : Z -> bool) : bool :=
  match n with
  | O => true
  | S k => P lo && all_from (lo + 1) k P
  end.

(** [timedelta(hours=m / 60.0)] is [m] minutes and [format_hours] accepts
    the hours. *)
Definition minutes_exact (m : Z) : bool :=
  match timedelta_of_hours (fdiv (float_of_Z m) (float_of_Z 60)) with
  | Ok td => (td =? m * us_per_minute) && returns (format_hours (fdiv (float_of_Z m) (float_of_Z 60)))
  | Raise _ => false
  end.

(** A decimal digit, and a string of decimal digits only. *)
Definition is_digit (c : ascii) : bool :=
  (48 <=? nat_of_ascii c)%nat && (nat_of_ascii c <=? 57)%nat.

Fixpoint digits_only (s : string) : bool :=
  match s with
  | EmptyString => true
  | String c r => is_digit c && digits_only r
  end.

(** The text [format_hours] gives for [k / 60.0] shows [k] minutes or one
    less, and [k] itself when [k] is a number of whole hours. *)
Definition minutes_shown (k : Z) : bool :=
  match format_hours (fdiv (float_of_Z k) (float_of_Z 60)) with
  | Ok text =>
      (String.eqb text (render_duration (k / 60) (k mod 60))
       || String.eqb text (render_duration ((k - 1) / 60) ((k - 1) mod 60)))
      && implb (k mod 60 =? 0) (String.eqb text (render_duration (k / 60) 0))
  | Raise _ => false
  end.

(** The calls a host makes with every input explicit, and their outcomes. *)
Inductive call :=
| Call_is_order_overdue (started_at : option datetime) (now : datetime)
| Call_format_hours (hours : float)
| Call_estimate_completion_time (started_at : option datetime) (estimated_minutes : option Z).

Inductive outcome :=
| Out_overdue (r : result bool)
| Out_text (r : result string)
| Out_estimate (r : result (option CompletionEstimate)).

(** One run of a call under an ambient state. *)
Definition run (amb : Timezone.ambient) (c : call) : outcome :=
  match c with
  | Call_is_order_overdue s n => Out_overdue (is_order_overdue amb s (Some n))
  | Call_format_hours h => Out_text (format_hours h)
  | Call_estimate_completion_time s m => Out_estimate (estimate_completion_time s m)
  end.

(** A call whose outcome cannot depend on the current time zone: the two
    timestamps of [is_order_overdue] are both naive or both aware. *)
Definition zone_free (c : call) : bool :=
  match c with
  | Call_is_order_overdue (Some s) n => Bool.eqb (Timezone.is_naive s) (Timezone.is_naive n)
  | _ => true
  end.

(** ** Of the examples *)

(** An order started on 2024-01-01 at midnight UTC, and the ambient state
    [td] microseconds later. *)
Definition midnight : datetime := civil 2024 1 1 0 0 0 (Some utc).

Definition amb_after (td : timedelta) : Timezone.ambient :=
  Timezone.mk_ambient utc (shifted midnight td).

(** The last hour of the last day a [datetime] can hold. *)
Definition last_evening : datetime := civil 9999 12 31 23 0 0 None.

(** A zone whose clocks go forward on 2024-03-10, from 02:00 at five hours
    behind UTC to 03:00 at four hours behind, as those of New York do; a
    wall time in the hour that is skipped has the offset from before the
    change, and the one from after it when [fold] is set. *)
Definition new_york : tzinfo :=
  mk_tzinfo 1 (fun w fold =>
    if w <? wall (civil 2024 3 10 2 0 0 None) then -5 * us_per_hour
    else if w <? wall (civil 2024 3 10 3 0 0 None)
         then (if fold then -4 * us_per_hour else -5 * us_per_hour)
         else -4 * us_per_hour).

(** * Facts on the floating-point operations *)

(** ** Powers of two and bit lengths *)

Lemma pow2_pos (k : Z) : 0 <= k -> 0 < 2 ^ k.
Proof. intros; apply Z.pow_pos_nonneg; lia. Qed.

Lemma pow2_split (a b : Z) : 0 <= a -> 0 <= b -> 2 ^ (a + b) = 2 ^ a * 2 ^ b.
Proof. intros; apply Z.pow_add_r; assumption. Qed.

Lemma pow2_le (a b : Z) : 0 <= a <= b -> 2 ^ a <= 2 ^ b.
Proof. intros; apply Z.pow_le_mono_r; lia. Qed.

Lemma pow2_lt_inv (a b : Z) : 0 <= a -> 0 <= b -> 2 ^ a < 2 ^ b -> a < b.
Proof. intros Ha Hb H. apply (Z.pow_lt_mono_r_iff 2); lia. Qed.

Lemma digits2_pos_bounds (p : positive) :
  2 ^ (Zpos (digits2_pos p) - 1) <= Zpos p < 2 ^ Zpos (digits2_pos p).
Proof.
  induction p as [p IH | p IH | ]; cbn [digits2_pos].
  - rewrite Pos2Z.inj_succ, (Pos2Z.inj_xI p).
    replace (Z.succ (Zpos (digits2_pos p)) - 1) with (1 + (Zpos (digits2_pos p) - 1)) by lia.
    replace (Z.succ (Zpos (digits2_pos p))) with (1 + Zpos (digits2_pos p)) by lia.
    rewrite !pow2_split by lia. change (2 ^ 1) with 2. lia.
  - rewrite Pos2Z.inj_succ, (Pos2Z.inj_xO p).
    replace (Z.succ (Zpos (digits2_pos p)) - 1) with (1 + (Zpos (digits2_pos p) - 1)) by lia.
    replace (Z.succ (Zpos (digits2_pos p))) with (1 + Zpos (digits2_pos p)) by lia.
    rewrite !pow2_split by lia. change (2 ^ 1) with 2. lia.
  - simpl. lia.
Qed.

Lemma Zdigits2_nonneg (m : Z) : 0 <= m -> 0 <= Zdigits2 m.
Proof. destruct m; simpl; lia. Qed.

Lemma Zdigits2_bounds (m : Z) :
  0 < m -> 2 ^ (Zdigits2 m - 1) <= m < 2 ^ Zdigits2 m.
Proof.
  destruct m as [ | p | p]; try lia. intros _. apply digits2_pos_bounds.
Qed.

Lemma Zdigits2_pos (m : Z) : 0 < m -> 0 < Zdigits2 m.
Proof. destruct m; simpl; lia. Qed.

Lemma Zdigits2_upper (m : Z) : 0 <= m -> m < 2 ^ Zdigits2 m.
Proof.
  intros H. destruct (Z.eq_dec m 0) as [-> | Hm]; [reflexivity | ].
  apply Zdigits2_bounds; lia.
Qed.

(** [m < 2 ^ k] bounds the bit length by [k]. *)
Lemma Zdigits2_le (m k : Z) : 0 <= m -> 0 <= k -> m < 2 ^ k -> Zdigits2 m <= k.
Proof.
  intros Hm Hk H. destruct (Z.eq_dec m 0) as [-> | Hz]; [simpl; lia | ].
  pose proof (Zdigits2_bounds m ltac:(lia)) as [Hl _].
  pose proof (Zdigits2_pos m ltac:(lia)).
  assert (Zdigits2 m - 1 < k); [ | lia].
  apply pow2_lt_inv; lia.
Qed.

(** [2 ^ (k - 1) <= m] bounds the bit length from below by [k]. *)
Lemma Zdigits2_ge (m k : Z) : 0 < k -> 2 ^ (k - 1) <= m -> k <= Zdigits2 m.
Proof.
  intros Hk H.
  assert (0 < m) by (pose proof (pow2_pos (k - 1)); lia).
  pose proof (Zdigits2_bounds m ltac:(lia)) as [_ Hu].
  pose proof (Zdigits2_pos m ltac:(lia)).
  assert (k - 1 < Zdigits2 m); [ | lia].
  apply pow2_lt_inv; lia.
Qed.

(** ** Shifting to the right *)

Lemma shr_1_m (mrs : shr_record) : 0 <= shr_m mrs -> shr_m (shr_1 mrs) = shr_m mrs / 2.
Proof.
  destruct mrs as [m r s]; cbn [shr_m]. intros Hm.
  destruct m as [ | [p | p | ] | p]; cbn [shr_1 shr_m]; try lia.
  - reflexivity.
  - rewrite (Pos2Z.inj_xI p). apply (Z.div_unique _ _ _ 1); lia.
  - rewrite (Pos2Z.inj_xO p). apply (Z.div_unique _ _ _ 0); lia.
  - reflexivity.
Qed.

Lemma shr_1_exact (mrs : shr_record) :
  0 <= shr_m mrs -> exact_record mrs -> shr_m mrs mod 2 = 0 -> exact_record (shr_1 mrs).
Proof.
  destruct mrs as [m r s]; unfold exact_record; cbn [shr_m shr_r shr_s].
  intros Hm [-> ->] Hmod.
  destruct m as [ | [p | p | ] | p]; cbn; try lia; try (split; reflexivity).
  - rewrite (Pos2Z.inj_xI p) in Hmod.
    rewrite Z.add_comm, Z.mul_comm, Z_mod_plus_full in Hmod. discriminate.
  - discriminate.
Qed.

Lemma iter_shr_1 (p : positive) (mrs : shr_record) :
  0 <= shr_m mrs ->
  shr_m (iter_pos shr_1 p mrs) = shr_m mrs / 2 ^ Zpos p
  /\ (exact_record mrs -> shr_m mrs mod 2 ^ Zpos p = 0 ->
      exact_record (iter_pos shr_1 p mrs)).
Proof.
  revert mrs. induction p as [p IH | p IH | ]; intros mrs Hm; cbn [iter_pos].
  - assert (H1 : 0 <= shr_m (shr_1 mrs)) by (rewrite shr_1_m by lia; apply Z.div_pos; lia).
    destruct (IH (shr_1 mrs) H1) as [E1 X1].
    assert (H2 : 0 <= shr_m (iter_pos shr_1 p (shr_1 mrs)))
      by (rewrite E1; apply Z.div_pos; [lia | apply pow2_pos; lia]).
    destruct (IH _ H2) as [E2 X2].
    assert (P : 2 ^ Zpos p~1 = 2 * 2 ^ Zpos p * 2 ^ Zpos p).
    { rewrite (Pos2Z.inj_xI p). replace (2 * Zpos p + 1) with (1 + Zpos p + Zpos p) by lia.
      rewrite !pow2_split by lia. reflexivity. }
    pose proof (pow2_pos (Zpos p) ltac:(lia)) as Hp.
    split.
    + rewrite E2, E1, shr_1_m by lia. rewrite !Z.div_div by lia. rewrite P. f_equal; lia.
    + intros Hex Hmod. rewrite P in Hmod.
      apply Z.mod_divide in Hmod; [ | lia]. destruct Hmod as [c Hc].
      apply X2.
      * apply X1.
        -- apply shr_1_exact; auto. rewrite Hc.
           replace (c * (2 * 2 ^ Zpos p * 2 ^ Zpos p)) with ((c * 2 ^ Zpos p * 2 ^ Zpos p) * 2) by lia.
           apply Z_mod_mult.
        -- rewrite shr_1_m by lia. rewrite Hc.
           replace (c * (2 * 2 ^ Zpos p * 2 ^ Zpos p)) with ((c * 2 ^ Zpos p * 2 ^ Zpos p) * 2) by lia.
           rewrite Z.div_mul by lia.
           replace (c * 2 ^ Zpos p * 2 ^ Zpos p) with ((c * 2 ^ Zpos p) * 2 ^ Zpos p) by lia.
           apply Z_mod_mult.
      * rewrite E1, shr_1_m by lia. rewrite Hc.
        replace (c * (2 * 2 ^ Zpos p * 2 ^ Zpos p)) with ((c * 2 ^ Zpos p * 2 ^ Zpos p) * 2) by lia.
        rewrite Z.div_mul by lia.
        replace (c * 2 ^ Zpos p * 2 ^ Zpos p) with ((c * 2 ^ Zpos p) * 2 ^ Zpos p) by lia.
        rewrite Z.div_mul by lia. apply Z_mod_mult.
  - destruct (IH mrs Hm) as [E1 X1].
    assert (H2 : 0 <= shr_m (iter_pos shr_1 p mrs))
      by (rewrite E1; apply Z.div_pos; [lia | apply pow2_pos; lia]).
    destruct (IH _ H2) as [E2 X2].
    assert (P : 2 ^ Zpos p~0 = 2 ^ Zpos p * 2 ^ Zpos p).
    { rewrite (Pos2Z.inj_xO p). replace (2 * Zpos p) with (Zpos p + Zpos p) by lia.
      rewrite !pow2_split by lia. reflexivity. }
    pose proof (pow2_pos (Zpos p) ltac:(lia)) as Hp.
    split.
    + rewrite E2, E1. rewrite !Z.div_div by lia. rewrite P. reflexivity.
    + intros Hex Hmod. rewrite P in Hmod.
      apply Z.mod_divide in Hmod; [ | lia]. destruct Hmod as [c Hc].
      apply X2.
      * apply X1; auto. rewrite Hc.
        replace (c * (2 ^ Zpos p * 2 ^ Zpos p)) with ((c * 2 ^ Zpos p) * 2 ^ Zpos p) by lia.
        apply Z_mod_mult.
      * rewrite E1, Hc.
        replace (c * (2 ^ Zpos p * 2 ^ Zpos p)) with ((c * 2 ^ Zpos p) * 2 ^ Zpos p) by lia.
        rewrite Z.div_mul by lia. apply Z_mod_mult.
  - split.
    + rewrite shr_1_m by lia. reflexivity.
    + intros Hex Hmod. apply shr_1_exact; auto.
Qed.

(** ** Rounding to the format *)

Lemma FE_eq (k : Z) : FE k = Z.max (k - 53) (-1074).
Proof. reflexivity. Qed.

Lemma FE_mono (a b : Z) : a <= b -> FE a <= FE b.
Proof. rewrite !FE_eq. lia. Qed.

Lemma round_nearest_even_bounds (m : Z) (l : location) :
  m <= round_nearest_even m l <= m + 1.
Proof.
  destruct l as [ | [ | | ]]; cbn [round_nearest_even]; try lia.
  destruct (Z.even m); lia.
Qed.

Lemma loc_of_exact_record (mrs : shr_record) :
  exact_record mrs -> loc_of_shr_record mrs = loc_Exact.
Proof. destruct mrs as [m r s]; intros [H1 H2]; cbn in *; subst; reflexivity. Qed.

Lemma shr_record_of_loc_m (m : Z) (l : location) : shr_m (shr_record_of_loc m l) = m.
Proof. destruct l as [ | [ | | ]]; reflexivity. Qed.

Lemma shr_spec (mrs : shr_record) (e n : Z) :
  0 <= shr_m mrs ->
  shr_m (fst (shr mrs e n)) = shr_m mrs / 2 ^ Z.max 0 n
  /\ snd (shr mrs e n) = e + Z.max 0 n
  /\ (exact_record mrs -> shr_m mrs mod 2 ^ Z.max 0 n = 0 -> exact_record (fst (shr mrs e n))).
Proof.
  intros Hm. destruct n as [ | p | p]; cbn [shr fst snd].
  - change (Z.max 0 0) with 0. rewrite Z.pow_0_r, Z.div_1_r.
    split; [reflexivity | split; [lia | intros H _; exact H]].
  - replace (Z.max 0 (Zpos p)) with (Zpos p) by lia.
    destruct (iter_shr_1 p mrs Hm) as [E X].
    split; [exact E | split; [reflexivity | exact X]].
  - replace (Z.max 0 (Zneg p)) with 0 by lia.
    rewrite Z.pow_0_r, Z.div_1_r.
    split; [reflexivity | split; [lia | intros H _; exact H]].
Qed.

Lemma binary_round_aux_spec (sx : bool) (mx ex : Z) (lx : location) :
  0 <= mx ->
  let n1 := Z.max 0 (FE (Zdigits2 mx + ex) - ex) in
  let e1 := ex + n1 in
  let t := mx / 2 ^ n1 in
  exists m1,
    t <= m1 <= t + 1
    /\ (lx = loc_Exact -> mx mod 2 ^ n1 = 0 -> m1 = t)
    /\ binary_round_aux prec emax sx mx ex lx
       = let n2 := Z.max 0 (FE (Zdigits2 m1 + e1) - e1) in
         finish sx (m1 / 2 ^ n2) (e1 + n2).
Proof.
  intros Hm n1 e1 t.
  unfold binary_round_aux, shr_fexp. fold (FE (Zdigits2 mx + ex)).
  pose proof (shr_spec (shr_record_of_loc mx lx) ex (FE (Zdigits2 mx + ex) - ex)) as S1.
  rewrite shr_record_of_loc_m in S1. specialize (S1 Hm).
  destruct (shr (shr_record_of_loc mx lx) ex (FE (Zdigits2 mx + ex) - ex)) as [mrs' e'].
  cbn [fst snd] in S1. destruct S1 as (M1 & E1 & X1).
  fold n1 in M1, E1, X1. fold e1 in E1. fold t in M1. subst e'.
  set (m1 := round_nearest_even (shr_m mrs') (loc_of_shr_record mrs')).
  assert (B : t <= m1 <= t + 1).
  { unfold m1. rewrite <- M1. apply round_nearest_even_bounds. }
  assert (Ht : 0 <= t) by (apply Z.div_pos; [lia | apply pow2_pos; lia]).
  exists m1. split; [exact B | split].
  - intros -> Hmod. unfold m1. rewrite loc_of_exact_record; [cbn; exact M1 | ].
    apply X1; [split; reflexivity | exact Hmod].
  - fold (FE (Zdigits2 m1 + e1)).
    pose proof (shr_spec (shr_record_of_loc m1 loc_Exact) e1 (FE (Zdigits2 m1 + e1) - e1)) as S2.
    rewrite shr_record_of_loc_m in S2. specialize (S2 ltac:(lia)).
    destruct (shr (shr_record_of_loc m1 loc_Exact) e1 (FE (Zdigits2 m1 + e1) - e1)) as [mrs'' e''].
    cbn [fst snd] in S2. destruct S2 as (M2 & E2 & _).
    cbv zeta. rewrite <- M2, <- E2. unfold finish.
    destruct (shr_m mrs''); reflexivity.
Qed.

Lemma binary_round_aux_cases (sx : bool) (mx ex : Z) (lx : location) :
  0 <= mx ->
  ex <= FE (Zdigits2 mx + ex) ->
  let E := FE (Zdigits2 mx + ex) in
  let t := mx / 2 ^ (E - ex) in
  exists m1,
    t <= m1 <= t + 1
    /\ (lx = loc_Exact -> mx mod 2 ^ (E - ex) = 0 -> m1 = t)
    /\ 0 <= t < 2 ^ 53
    /\ (-1074 < E -> 2 ^ 52 <= t)
    /\ binary_round_aux prec emax sx mx ex lx = round_result sx m1 E.
Proof.
  intros Hm Hc E t.
  destruct (binary_round_aux_spec sx mx ex lx Hm) as (m1 & B & X & R).
  fold E in R, B, X.
  replace (Z.max 0 (E - ex)) with (E - ex) in R, B, X by (unfold E; lia).
  replace (ex + (E - ex)) with E in R by lia. fold t in B, X.
  pose proof (Zdigits2_nonneg mx Hm) as Hd.
  pose proof (Zdigits2_upper mx Hm) as Hu.
  assert (HE : E = Z.max (Zdigits2 mx + ex - 53) (-1074)) by reflexivity.
  pose proof (pow2_pos (E - ex) ltac:(lia)) as Hp.
  assert (T0 : 0 <= t) by (apply Z.div_pos; lia).
  assert (T1 : t < 2 ^ 53).
  { apply Z.div_lt_upper_bound; [lia | ].
    rewrite <- pow2_split by lia.
    eapply Z.lt_le_trans; [exact Hu | apply pow2_le; lia]. }
  assert (T2 : -1074 < E -> 2 ^ 52 <= t).
  { intros HE'. assert (Hmx : 0 < mx).
    { destruct (Z.eq_dec mx 0) as [-> | ]; [ | lia]. cbn in HE. lia. }
    pose proof (Zdigits2_bounds mx Hmx) as [Hl _].
    apply Z.div_le_lower_bound; [lia | ].
    rewrite <- pow2_split by lia.
    eapply Z.le_trans; [ | exact Hl]. apply pow2_le; lia. }
  exists m1. repeat split; try lia; auto.
  rewrite R. unfold round_result. cbv zeta.
  destruct (Z.ltb_spec m1 (2 ^ 53)) as [Hlt | Hge].
  - assert (Zdigits2 m1 <= 53) by (apply Zdigits2_le; lia).
    replace (Z.max 0 (FE (Zdigits2 m1 + E) - E)) with 0 by (rewrite FE_eq; lia).
    rewrite Z.pow_0_r, Z.div_1_r, Z.add_0_r. reflexivity.
  - assert (m1 = 2 ^ 53) by lia. subst m1.
    change (Zdigits2 (2 ^ 53)) with 54.
    replace (Z.max 0 (FE (54 + E) - E)) with 1 by (rewrite FE_eq; lia).
    reflexivity.
Qed.

(** ** Comparing scaled integers *)

Lemma vle_scale (a p b q k : Z) :
  k <= Z.min p q -> (vle a p b q <-> a * 2 ^ (p - k) <= b * 2 ^ (q - k)).
Proof.
  intros Hk. unfold vle. set (m := Z.min p q) in *.
  replace (p - k) with ((p - m) + (m - k)) by lia.
  replace (q - k) with ((q - m) + (m - k)) by lia.
  rewrite !pow2_split by lia.
  pose proof (pow2_pos (m - k) ltac:(lia)) as Hp.
  rewrite !Z.mul_assoc. symmetry. rewrite <- Z.mul_le_mono_pos_r by exact Hp. reflexivity.
Qed.

Lemma vle_trans (a p b q c r : Z) : vle a p b q -> vle b q c r -> vle a p c r.
Proof.
  intros H1 H2. set (k := Z.min p (Z.min q r)).
  apply (vle_scale a p b q k) in H1; [ | lia].
  apply (vle_scale b q c r k) in H2; [ | lia].
  apply (vle_scale a p c r k); lia.
Qed.

Lemma vle_refl (a p : Z) : vle a p a p.
Proof. unfold vle. lia. Qed.

(** A smaller value has no more binary digits before the point. *)
Lemma vle_magnitude (a p b q : Z) :
  0 < a -> 0 <= b -> vle a p b q -> Zdigits2 a + p <= Zdigits2 b + q.
Proof.
  intros Ha Hb H. set (k := Z.min p q). apply (vle_scale a p b q k) in H; [ | lia].
  pose proof (Zdigits2_bounds a Ha) as [Hl _].
  pose proof (Zdigits2_upper b Hb) as Hu.
  pose proof (Zdigits2_pos a Ha). pose proof (Zdigits2_nonneg b Hb).
  pose proof (pow2_pos (p - k) ltac:(lia)) as P1.
  pose proof (pow2_pos (q - k) ltac:(lia)) as P2.
  assert (2 ^ (Zdigits2 a - 1 + (p - k)) < 2 ^ (Zdigits2 b + (q - k))).
  { rewrite !pow2_split by lia.
    apply Z.le_lt_trans with (a * 2 ^ (p - k)).
    - apply Z.mul_le_mono_nonneg_r; lia.
    - apply Z.le_lt_trans with (b * 2 ^ (q - k)); [exact H | ].
      apply Z.mul_lt_mono_pos_r; lia. }
  apply pow2_lt_inv in H2; lia.
Qed.

(** ** Canonical mantissas *)

Lemma canonical_bounds (m e : Z) :
  0 < m -> canonical m e -> m < 2 ^ 53 /\ -1074 <= e /\ (-1074 < e -> 2 ^ 52 <= m).
Proof.
  unfold canonical. rewrite FE_eq. intros Hm Hc.
  pose proof (Zdigits2_bounds m Hm) as [Hl Hu]. pose proof (Zdigits2_pos m Hm).
  repeat split.
  - eapply Z.lt_le_trans; [exact Hu | apply pow2_le; lia].
  - lia.
  - intros He. eapply Z.le_trans; [ | exact Hl]. apply pow2_le; lia.
Qed.

Lemma canonical_intro (m e : Z) :
  0 < m -> m < 2 ^ 53 -> -1074 <= e -> (-1074 < e -> 2 ^ 52 <= m) -> canonical m e.
Proof.
  intros Hm Hu He Hn. unfold canonical. rewrite FE_eq.
  assert (Zdigits2 m <= 53) by (apply Zdigits2_le; lia).
  destruct (Z.eq_dec e (-1074)) as [-> | Hne]; [lia | ].
  assert (53 <= Zdigits2 m) by (apply Zdigits2_ge; [lia | apply Hn; lia]).
  lia.
Qed.

(** On canonical positive numbers the comparison of the format is the
    comparison of the values. *)
Lemma SFleb_canonical (m1 m2 : positive) (e1 e2 : Z) :
  canonical (Zpos m1) e1 -> canonical (Zpos m2) e2 ->
  (SFleb (S754_finite false m1 e1) (S754_finite false m2 e2) = true
   <-> vle (Zpos m1) e1 (Zpos m2) e2).
Proof.
  intros C1 C2.
  apply canonical_bounds in C1; [ | lia]. apply canonical_bounds in C2; [ | lia].
  destruct C1 as (U1 & L1 & N1), C2 as (U2 & L2 & N2).
  unfold SFleb, SFcompare, vle.
  destruct (Z.compare_spec e1 e2) as [-> | Hlt | Hgt].
  - rewrite Z.min_id, Z.sub_diag, Z.pow_0_r, !Z.mul_1_r.
    change (Pos.compare_cont Eq m1 m2) with (Pos.compare m1 m2).
    rewrite Pos2Z.inj_compare.
    destruct (Z.compare_spec (Zpos m1) (Zpos m2)); split; intros; try lia; try reflexivity;
      try discriminate.
  - replace (Z.min e1 e2) with e1 by lia. rewrite Z.sub_diag, Z.pow_0_r, Z.mul_1_r.
    split; [intros _ | reflexivity].
    specialize (N2 ltac:(lia)).
    assert (2 <= 2 ^ (e2 - e1)) by (change 2 with (2 ^ 1) at 1; apply pow2_le; lia).
    nia.
  - replace (Z.min e1 e2) with e2 by lia. rewrite Z.sub_diag, Z.pow_0_r, Z.mul_1_r.
    split; [discriminate | intros H].
    specialize (N1 ltac:(lia)).
    assert (2 <= 2 ^ (e1 - e2)) by (change 2 with (2 ^ 1) at 1; apply pow2_le; lia).
    nia.
Qed.

(** ** Bounds on a rounded result *)

Lemma round_result_shape (sx : bool) (m1 E : Z) :
  0 <= m1 <= 2 ^ 53 -> -1074 <= E -> (-1074 < E -> 2 ^ 52 <= m1) ->
  round_result sx m1 E = S754_zero sx /\ m1 = 0
  \/ round_result sx m1 E = S754_infinity sx /\ 0 < m1
       /\ (971 < E \/ m1 = 2 ^ 53 /\ 971 <= E)
  \/ exists m e, round_result sx m1 E = S754_finite sx m e
       /\ canonical (Zpos m) e /\ e <= 971
       /\ (Zpos m = m1 /\ e = E \/ m1 = 2 ^ 53 /\ Zpos m = 2 ^ 52 /\ e = E + 1).
Proof.
  intros Hm HE Hn. unfold round_result.
  destruct (Z.ltb_spec m1 (2 ^ 53)) as [Hlt | Hge].
  - destruct m1 as [ | p | p]; try lia.
    + left. split; reflexivity.
    + right. cbn [finish]. change (emax - prec) with 971.
      destruct (Z.leb_spec E 971).
      * right. exists p, E. repeat split; auto.
        apply canonical_intro; lia.
      * left. split; [reflexivity | split; [lia | left; lia]].
  - assert (m1 = 2 ^ 53) by lia. subst m1. right.
    change (finish sx (2 ^ 52) (E + 1))
      with (if E + 1 <=? 971 then S754_finite sx 4503599627370496 (E + 1) else S754_infinity sx).
    destruct (Z.leb_spec (E + 1) 971).
    + right. exists 4503599627370496%positive, (E + 1). repeat split; auto.
      apply canonical_intro; lia.
    + left. split; [reflexivity | split; [lia | right; lia]].
Qed.

Lemma binary_round_aux_lower (sx : bool) (mx ex : Z) (lx : location) (mf ef : Z) :
  0 <= mx -> ex <= FE (Zdigits2 mx + ex) ->
  0 < mf -> canonical mf ef ->
  Zdigits2 mf + ef <= Zdigits2 mx + ex ->
  (ex <= ef -> mf * 2 ^ (ef - ex) <= mx) ->
  mag_ge sx (binary_round_aux prec emax sx mx ex lx) mf ef.
Proof.
  intros Hm Hc Hf Cf Hmag Hval.
  destruct (binary_round_aux_cases sx mx ex lx Hm Hc) as (m1 & B & _ & T & N & R).
  set (E := FE (Zdigits2 mx + ex)) in *.
  assert (HE : ef <= E) by (rewrite <- Cf; apply FE_mono; exact Hmag).
  destruct (canonical_bounds mf ef Hf Cf) as (Uf & Lf & Nf).
  assert (M1 : mf <= m1 \/ (ef < E /\ 2 ^ 52 <= m1)).
  { destruct (Z.eq_dec E ef) as [Heq | Hne].
    - left. eapply Z.le_trans; [ | apply B].
      apply Z.div_le_lower_bound; [apply pow2_pos; lia | ].
      rewrite Heq. rewrite Z.mul_comm. apply Hval. lia.
    - right. split; [lia | ]. eapply Z.le_trans; [apply N; lia | apply B]. }
  rewrite R.
  assert (Hn : -1074 < E -> 2 ^ 52 <= m1).
  { intros HE'. eapply Z.le_trans; [apply N; exact HE' | apply B]. }
  destruct (round_result_shape sx m1 E ltac:(lia) ltac:(lia) Hn)
    as [[_ Z0] | [[Ri _] | (m & e & Rf & Cm & _ & Sh)]].
  - lia.
  - left. exact Ri.
  - right. exists m, e. split; [exact Rf | split; [exact Cm | ]].
    apply (vle_scale mf ef (Zpos m) e ef); [lia | ].
    rewrite Z.sub_diag, Z.pow_0_r, Z.mul_1_r.
    assert (P : 1 <= 2 ^ (e - ef)) by (pose proof (pow2_pos (e - ef)); lia).
    destruct M1 as [M1 | [M1 M2]].
    + destruct Sh as [[-> ->] | (-> & -> & ->)]; [nia | ].
      assert (2 <= 2 ^ (E + 1 - ef)) by (change 2 with (2 ^ 1) at 1; apply pow2_le; lia).
      nia.
    + assert (2 <= 2 ^ (e - ef)) by (change 2 with (2 ^ 1) at 1; apply pow2_le; lia).
      destruct Sh as [[Hm1 ->] | (_ & -> & ->)]; nia.
Qed.

Lemma binary_round_aux_upper (sx : bool) (mx ex : Z) (lx : location) (mf ef : Z) :
  0 <= mx -> ex <= FE (Zdigits2 mx + ex) ->
  0 < mf -> canonical mf ef -> ef <= 971 ->
  FE (Zdigits2 mx + ex) <= ef ->
  mx <= mf * 2 ^ (ef - ex) ->
  (mx = mf * 2 ^ (ef - ex) -> lx = loc_Exact) ->
  mag_le sx (binary_round_aux prec emax sx mx ex lx) mf ef.
Proof.
  intros Hm Hc Hf Cf Bf HE Hval Hex.
  destruct (binary_round_aux_cases sx mx ex lx Hm Hc) as (m1 & B & X & T & N & R).
  set (E := FE (Zdigits2 mx + ex)) in *.
  destruct (canonical_bounds mf ef Hf Cf) as (Uf & Lf & Nf).
  assert (LE : -1074 <= E) by (unfold E; rewrite FE_eq; lia).
  assert (M1 : (E = ef /\ m1 <= mf) \/ (E < ef /\ 2 ^ 52 <= mf)).
  { destruct (Z.eq_dec E ef) as [Heq | Hne].
    - left. split; [exact Heq | ].
      pose proof (pow2_pos (E - ex) ltac:(lia)) as Hp.
      assert (Ht : mx / 2 ^ (E - ex) <= mf).
      { apply Z.div_le_upper_bound; [lia | ]. rewrite Heq, Z.mul_comm. exact Hval. }
      destruct (Z.eq_dec (mx / 2 ^ (E - ex)) mf) as [Hq | Hq]; [ | lia].
      pose proof (Z.mul_div_le mx (2 ^ (E - ex)) Hp) as Hd.
      assert (Hmx : mx = mf * 2 ^ (ef - ex)) by (rewrite Heq in *; nia).
      rewrite X; [lia | apply Hex; exact Hmx | ].
      rewrite Hmx, Heq. apply Z_mod_mult.
    - right. split; [lia | apply Nf; lia]. }
  rewrite R.
  assert (Hn : -1074 < E -> 2 ^ 52 <= m1).
  { intros HE'. eapply Z.le_trans; [apply N; exact HE' | apply B]. }
  destruct (round_result_shape sx m1 E ltac:(lia) LE Hn)
    as [[Rz _] | [[_ [_ Ri]] | (m & e & Rf & Cm & _ & Sh)]].
  - left. exact Rz.
  - lia.
  - right. exists m, e. split; [exact Rf | split; [exact Cm | ]].
    destruct M1 as [[M1 M2] | [M1 M2]].
    + destruct Sh as [[Hm1 ->] | (-> & _ & _)]; [ | lia].
      rewrite M1. apply (vle_scale _ _ _ _ ef); [lia | ].
      rewrite Z.sub_diag, Z.pow_0_r, !Z.mul_1_r. lia.
    + destruct Sh as [[Hm1 ->] | (_ & -> & ->)].
      * apply (vle_scale _ _ _ _ E); [lia | ].
        rewrite Z.sub_diag, Z.pow_0_r, Z.mul_1_r.
        assert (2 <= 2 ^ (ef - E)) by (change 2 with (2 ^ 1) at 1; apply pow2_le; lia).
        nia.
      * apply (vle_scale _ _ _ _ (E + 1)); [lia | ].
        rewrite Z.sub_diag, Z.pow_0_r, Z.mul_1_r.
        assert (P : 1 <= 2 ^ (ef - (E + 1))) by (pose proof (pow2_pos (ef - (E + 1))); lia).
        nia.
Qed.

(** ** Division *)

Lemma new_location_zero (n : Z) : new_location n 0 = loc_Exact.
Proof. unfold new_location. destruct (Z.even n); reflexivity. Qed.

Lemma SFdiv_finite (sx sy : bool) (mx my : positive) (ex ey : Z) :
  exists lz,
    (div_num mx ex my ey mod Zpos my = 0 -> lz = loc_Exact)
    /\ SFdiv prec emax (S754_finite sx mx ex) (S754_finite sy my ey)
       = binary_round_aux prec emax (xorb sx sy)
           (div_num mx ex my ey / Zpos my) (div_exp mx ex my ey) lz.
Proof.
  cbn [SFdiv]. unfold SFdiv_core_binary.
  fold (FE (Zdigits2 (Zpos mx) + ex - (Zdigits2 (Zpos my) + ey))).
  fold (div_exp mx ex my ey).
  assert (Hs : 0 <= ex - ey - div_exp mx ex my ey) by (unfold div_exp; lia).
  assert (Hm : match ex - ey - div_exp mx ex my ey with
               | Zpos _ => Z.shiftl (Zpos mx) (ex - ey - div_exp mx ex my ey)
               | Z0 => Zpos mx
               | Zneg _ => 0
               end = div_num mx ex my ey).
  { unfold div_num. destruct (ex - ey - div_exp mx ex my ey) as [ | p | p] eqn:E.
    - rewrite Z.pow_0_r. lia.
    - apply Z.shiftl_mul_pow2. lia.
    - lia. }
  rewrite Hm.
  pose proof (Z.div_eucl_eq (div_num mx ex my ey) (Zpos my) ltac:(lia)) as Heq.
  unfold Z.modulo, Z.div.
  destruct (Z.div_eucl (div_num mx ex my ey) (Zpos my)) as [q r].
  exists (new_location (Zpos my) r). split; [ | reflexivity].
  intros ->. apply new_location_zero.
Qed.

Lemma div_num_pos (mx my : positive) (ex ey : Z) : 0 < div_num mx ex my ey.
Proof.
  unfold div_num.
  assert (0 <= ex - ey - div_exp mx ex my ey) by (unfold div_exp; lia).
  pose proof (pow2_pos (ex - ey - div_exp mx ex my ey) ltac:(lia)). nia.
Qed.

Lemma div_quot_nonneg (mx my : positive) (ex ey : Z) : 0 <= div_num mx ex my ey / Zpos my.
Proof. apply Z.div_pos; [pose proof (div_num_pos mx my ex ey) | ]; lia. Qed.

(** The quotient is never coarser than the format. *)
Lemma div_not_coarse (mx my : positive) (ex ey : Z) :
  div_exp mx ex my ey
  <= FE (Zdigits2 (div_num mx ex my ey / Zpos my) + div_exp mx ex my ey).
Proof.
  set (q := div_num mx ex my ey / Zpos my).
  set (e' := div_exp mx ex my ey).
  set (D := Zdigits2 (Zpos mx) + ex - (Zdigits2 (Zpos my) + ey)).
  assert (He : e' <= FE D) by (unfold e', div_exp; fold D; lia).
  assert (Hs : 0 <= ex - ey - e') by (unfold e', div_exp; lia).
  pose proof (div_quot_nonneg mx my ex ey) as Hq. fold q in Hq.
  eapply Z.le_trans; [exact He | apply FE_mono].
  pose proof (Zdigits2_nonneg q Hq).
  destruct (Z_le_gt_dec (D - e') 0) as [Hle | Hgt]; [lia | ].
  assert (D - e' <= Zdigits2 q); [ | lia].
  apply Zdigits2_ge; [lia | ].
  apply Z.div_le_lower_bound; [lia | ].
  unfold div_num. fold e'.
  pose proof (Zdigits2_bounds (Zpos mx) ltac:(lia)) as [Hl _].
  pose proof (Zdigits2_bounds (Zpos my) ltac:(lia)) as [_ Hu].
  pose proof (Zdigits2_pos (Zpos mx) ltac:(lia)).
  pose proof (Zdigits2_pos (Zpos my) ltac:(lia)).
  pose proof (pow2_pos (ex - ey - e') Hs) as P1.
  pose proof (pow2_pos (D - e' - 1) ltac:(lia)) as P2.
  apply Z.le_trans with (2 ^ Zdigits2 (Zpos my) * 2 ^ (D - e' - 1)).
  - apply Z.mul_le_mono_nonneg_r; lia.
  - rewrite <- pow2_split by lia.
    replace (Zdigits2 (Zpos my) + (D - e' - 1))
      with ((Zdigits2 (Zpos mx) - 1) + (ex - ey - e')) by (unfold D; lia).
    rewrite pow2_split by lia.
    apply Z.mul_le_mono_nonneg_r; lia.
Qed.

(** A quotient of value at least a canonical [mf * 2^ef] rounds to at
    least that number. *)
Lemma SFdiv_lower (sx sy : bool) (mx my : positive) (ex ey mf ef : Z) :
  0 < mf -> canonical mf ef ->
  vle (mf * Zpos my) (ef + ey) (Zpos mx) ex ->
  mag_ge (xorb sx sy) (SFdiv prec emax (S754_finite sx mx ex) (S754_finite sy my ey)) mf ef.
Proof.
  intros Hf Cf H.
  destruct (SFdiv_finite sx sy mx my ex ey) as (lz & _ & ->).
  pose proof (div_quot_nonneg mx my ex ey) as Hq.
  pose proof (div_not_coarse mx my ex ey) as Hc.
  pose proof (div_num_pos mx my ex ey) as Hn.
  set (q := div_num mx ex my ey / Zpos my) in *.
  set (e' := div_exp mx ex my ey) in *.
  assert (Hs : 0 <= ex - ey - e') by (unfold e', div_exp; lia).
  assert (HM : div_num mx ex my ey = Zpos mx * 2 ^ (ex - ey - e')) by reflexivity.
  pose proof (Z.mul_succ_div_gt (div_num mx ex my ey) (Zpos my) ltac:(lia)) as Hgt.
  fold q in Hgt.
  apply binary_round_aux_lower; auto.
  - (* magnitude *)
    set (k := Z.min (ef + ey) (e' + ey)).
    apply (vle_scale _ _ _ _ k) in H; [ | lia].
    replace (ex - k) with ((ex - ey - e') + (e' + ey - k)) in H by lia.
    rewrite pow2_split in H by lia. rewrite Z.mul_assoc, <- HM in H.
    pose proof (Zdigits2_upper q Hq) as Hu.
    pose proof (Zdigits2_bounds mf Hf) as [Hl _].
    pose proof (Zdigits2_pos mf Hf). pose proof (Zdigits2_nonneg q Hq).
    pose proof (pow2_pos (ef + ey - k) ltac:(lia)) as PA.
    pose proof (pow2_pos (e' + ey - k) ltac:(lia)) as PB.
    assert (L : 2 ^ (Zdigits2 mf - 1 + (ef + ey - k)) < 2 ^ (Zdigits2 q + (e' + ey - k))).
    { rewrite !pow2_split by lia.
      set (A := 2 ^ (ef + ey - k)) in *. set (B := 2 ^ (e' + ey - k)) in *.
      assert (mf * A < 2 ^ Zdigits2 q * B).
      { apply (Z.mul_lt_mono_pos_l (Zpos my)); [lia | ].
        assert (div_num mx ex my ey * B < Zpos my * 2 ^ Zdigits2 q * B).
        { apply Z.mul_lt_mono_pos_r; [lia | ]. nia. }
        nia. }
      assert (2 ^ (Zdigits2 mf - 1) * A <= mf * A) by (apply Z.mul_le_mono_nonneg_r; lia).
      lia. }
    apply pow2_lt_inv in L; lia.
  - (* value *)
    intros He.
    apply (vle_scale _ _ _ _ (e' + ey)) in H; [ | lia].
    replace (ef + ey - (e' + ey)) with (ef - e') in H by lia.
    replace (ex - (e' + ey)) with (ex - ey - e') in H by lia.
    rewrite <- HM in H.
    apply Z.div_le_lower_bound; [lia | ]. nia.
Qed.

(** A quotient of value at most a canonical [mf * 2^ef] rounds to at most
    that number. *)
Lemma SFdiv_upper (sx sy : bool) (mx my : positive) (ex ey mf ef : Z) :
  0 < mf -> canonical mf ef -> ef <= 971 ->
  vle (Zpos mx) ex (mf * Zpos my) (ef + ey) ->
  mag_le (xorb sx sy) (SFdiv prec emax (S754_finite sx mx ex) (S754_finite sy my ey)) mf ef.
Proof.
  intros Hf Cf Bf H.
  destruct (SFdiv_finite sx sy mx my ex ey) as (lz & Hlz & ->).
  pose proof (div_quot_nonneg mx my ex ey) as Hq.
  pose proof (div_not_coarse mx my ex ey) as Hc.
  pose proof (div_num_pos mx my ex ey) as Hn.
  set (q := div_num mx ex my ey / Zpos my) in *.
  set (e' := div_exp mx ex my ey) in *.
  assert (Hs : 0 <= ex - ey - e') by (unfold e', div_exp; lia).
  assert (HM : div_num mx ex my ey = Zpos mx * 2 ^ (ex - ey - e')) by reflexivity.
  pose proof (Z.mul_div_le (div_num mx ex my ey) (Zpos my) ltac:(lia)) as Hle.
  fold q in Hle.
  destruct (canonical_bounds mf ef Hf Cf) as (Uf & Lf & Nf).
  assert (HE : FE (Zdigits2 q + e') <= ef).
  { destruct (Z.eq_dec q 0) as [Hz | Hnz].
    - rewrite Hz in *. cbn [Zdigits2] in *. rewrite FE_eq in *. lia.
    - rewrite <- Cf. apply FE_mono.
      set (k := Z.min (ef + ey) (e' + ey)).
      apply (vle_scale _ _ _ _ k) in H; [ | lia].
      replace (ex - k) with ((ex - ey - e') + (e' + ey - k)) in H by lia.
      rewrite pow2_split in H by lia. rewrite Z.mul_assoc, <- HM in H.
      pose proof (Zdigits2_bounds q ltac:(lia)) as [Hl _].
      pose proof (Zdigits2_upper mf ltac:(lia)) as Hu.
      pose proof (Zdigits2_pos q ltac:(lia)). pose proof (Zdigits2_nonneg mf ltac:(lia)).
      pose proof (pow2_pos (ef + ey - k) ltac:(lia)) as PA.
      pose proof (pow2_pos (e' + ey - k) ltac:(lia)) as PB.
      assert (L : 2 ^ (Zdigits2 q - 1 + (e' + ey - k)) < 2 ^ (Zdigits2 mf + (ef + ey - k))).
      { rewrite !pow2_split by lia.
        set (A := 2 ^ (ef + ey - k)) in *. set (B := 2 ^ (e' + ey - k)) in *.
        assert (q * B <= mf * A).
        { apply (Z.mul_le_mono_pos_l _ _ (Zpos my)); [lia | ].
          assert (Zpos my * q * B <= div_num mx ex my ey * B)
            by (apply Z.mul_le_mono_nonneg_r; lia).
          nia. }
        assert (2 ^ (Zdigits2 q - 1) * B <= q * B) by (apply Z.mul_le_mono_nonneg_r; lia).
        assert (mf * A < 2 ^ Zdigits2 mf * A) by (apply Z.mul_lt_mono_pos_r; lia).
        lia. }
      apply pow2_lt_inv in L; lia. }
  assert (He : e' <= ef) by lia.
  apply (vle_scale _ _ _ _ (e' + ey)) in H; [ | lia].
  replace (ef + ey - (e' + ey)) with (ef - e') in H by lia.
  replace (ex - (e' + ey)) with (ex - ey - e') in H by lia.
  rewrite <- HM in H.
  apply binary_round_aux_upper; auto.
  - apply Z.div_le_upper_bound; [lia | ]. nia.
  - intros Hqe. apply Hlz.
    assert (div_num mx ex my ey = Zpos my * q) by nia.
    rewrite H0, Z.mul_comm. apply Z_mod_mult.
Qed.

(** ** Signs *)

Lemma mag_ge_sign (s : bool) (r : float) (mf ef : Z) : mag_ge s r mf ef -> has_sign s r.
Proof. intros [-> | (m & e & -> & _)]; reflexivity. Qed.

Lemma mag_le_sign (s : bool) (r : float) (mf ef : Z) : mag_le s r mf ef -> has_sign s r.
Proof. intros [-> | (m & e & -> & _)]; reflexivity. Qed.

Lemma SFdiv_sign (sx sy : bool) (mx my : positive) (ex ey : Z) :
  has_sign (xorb sx sy) (SFdiv prec emax (S754_finite sx mx ex) (S754_finite sy my ey)).
Proof.
  destruct (SFdiv_finite sx sy mx my ex ey) as (lz & _ & ->).
  destruct (binary_round_aux_cases (xorb sx sy) _ _ lz (div_quot_nonneg mx my ex ey)
              (div_not_coarse mx my ex ey)) as (m1 & B & _ & T & _ & ->).
  unfold round_result. destruct (m1 <? 2 ^ 53).
  - destruct m1 as [ | p | p]; cbn [finish]; try lia; [reflexivity | ].
    destruct (_ <=? _); reflexivity.
  - change (finish (xorb sx sy) (2 ^ 52) (FE (Zdigits2 (div_num mx ex my ey / Zpos my)
       + div_exp mx ex my ey) + 1))
      with (if FE (Zdigits2 (div_num mx ex my ey / Zpos my) + div_exp mx ex my ey) + 1 <=? emax - prec
            then S754_finite (xorb sx sy) 4503599627370496
                   (FE (Zdigits2 (div_num mx ex my ey / Zpos my) + div_exp mx ex my ey) + 1)
            else S754_infinity (xorb sx sy)).
    destruct (_ <=? _); reflexivity.
Qed.

(** ** Comparisons of rounded results with a canonical number *)

Lemma fge_mag_ge (r : float) (pf : positive) (ef : Z) :
  canonical (Zpos pf) ef -> mag_ge false r (Zpos pf) ef ->
  fge r (S754_finite false pf ef) = true.
Proof.
  intros Cf [-> | (m & e & -> & Cm & H)]; [reflexivity | ].
  unfold fge. apply SFleb_canonical; assumption.
Qed.

Lemma fge_mag_le (r : float) (pf : positive) (ef mg eg : Z) :
  canonical (Zpos pf) ef -> mag_le false r mg eg -> ~ vle (Zpos pf) ef mg eg ->
  fge r (S754_finite false pf ef) = false.
Proof.
  intros Cf [-> | (m & e & -> & Cm & H)] Hn; [reflexivity | ].
  unfold fge. destruct (SFleb (S754_finite false pf ef) (S754_finite false m e)) eqn:E;
    [ | reflexivity].
  exfalso. apply Hn. apply SFleb_canonical in E; try assumption.
  eapply vle_trans; eassumption.
Qed.

Lemma fge_negative (r : float) (pf : positive) (ef : Z) :
  has_sign true r -> fge r (S754_finite false pf ef) = false.
Proof. destruct r as [s | s | | s m e]; cbn; intros H; try contradiction; subst; reflexivity. Qed.

(** ** The elapsed hours of a timedelta *)

Lemma float_of_3600 : float_of_Z 3600 = f3600.
Proof. reflexivity. Qed.

Lemma float_of_9 : float_of_Z OVERDUE_THRESHOLD_HOURS = f9.
Proof. reflexivity. Qed.

Lemma hours_of_overdue (us : positive) :
  nine_hours <= Zpos us -> mag_ge false (hours_of (Zpos us)) 5066549580791808 (-49).
Proof.
  intros H. unfold hours_of, total_seconds, Z_truediv, int_truediv.
  rewrite float_of_3600.
  assert (A : mag_ge (xorb false false)
                (SFdiv prec emax (S754_finite false us 0) (S754_finite false 1000000 0))
                8906044184985600 (-38)).
  { apply SFdiv_lower; [lia | reflexivity | ].
    unfold vle. change (Z.min (-38 + 0) 0) with (-38).
    change (2 ^ (-38 + 0 - -38)) with 1. change (2 ^ (0 - -38)) with 274877906944.
    unfold nine_hours, us_per_hour, us_per_second in H. lia. }
  cbn [xorb] in A. destruct A as [-> | (m & e & -> & Cm & Hv)].
  - left. reflexivity.
  - unfold fdiv, f3600. change false with (xorb false false) at 1.
    apply SFdiv_lower; [lia | reflexivity | ].
    eapply vle_trans; [ | exact Hv].
    unfold vle. apply Z.leb_le. reflexivity.
Qed.

Lemma hours_of_not_overdue (us : positive) :
  Zpos us < nine_hours -> mag_le false (hours_of (Zpos us)) 5066549580791807 (-49).
Proof.
  intros H. unfold hours_of, total_seconds, Z_truediv, int_truediv.
  rewrite float_of_3600.
  assert (A : mag_le (xorb false false)
                (SFdiv prec emax (S754_finite false us 0) (S754_finite false 1000000 0))
                8906044184710723 (-38)).
  { apply SFdiv_upper; [lia | reflexivity | lia | ].
    unfold vle. change (Z.min 0 (-38 + 0)) with (-38).
    change (2 ^ (-38 + 0 - -38)) with 1. change (2 ^ (0 - -38)) with 274877906944.
    unfold nine_hours, us_per_hour, us_per_second in H. lia. }
  cbn [xorb] in A. destruct A as [-> | (m & e & -> & Cm & Hv)].
  - left. reflexivity.
  - unfold fdiv, f3600. change false with (xorb false false) at 1.
    apply SFdiv_upper; [lia | reflexivity | lia | ].
    eapply vle_trans; [exact Hv | ].
    unfold vle. apply Z.leb_le. reflexivity.
Qed.

Lemma hours_of_negative (us : positive) : has_sign true (hours_of (Zneg us)).
Proof.
  unfold hours_of, total_seconds, Z_truediv, int_truediv. rewrite float_of_3600.
  pose proof (SFdiv_sign true false us 1000000 0 0) as A. cbn [xorb] in A.
  destruct (SFdiv prec emax (S754_finite true us 0) (S754_finite false 1000000 0))
    as [s | s | | s m e]; cbn in A; try contradiction; subst.
  - reflexivity.
  - reflexivity.
  - unfold fdiv, f3600. apply (SFdiv_sign true false).
Qed.

(** The comparison of the source decides the nine hours exactly: the two
    roundings of [total_seconds() / 3600.0] never carry an elapsed time
    across the threshold. *)
Lemma overdue_threshold (td : timedelta) :
  fge (hours_of td) (float_of_Z OVERDUE_THRESHOLD_HOURS) = (nine_hours <=? td).
Proof.
  rewrite float_of_9. unfold f9.
  destruct td as [ | us | us].
  - reflexivity.
  - destruct (Z.leb_spec nine_hours (Zpos us)) as [H | H].
    + apply fge_mag_ge; [reflexivity | apply hours_of_overdue; exact H].
    + eapply fge_mag_le; [reflexivity | apply hours_of_not_overdue; exact H | ].
      unfold vle. intros C. apply Z.leb_le in C. discriminate C.
  - replace (nine_hours <=? Zneg us) with false
      by (symmetry; apply Z.leb_gt; unfold nine_hours, us_per_hour, us_per_second; lia).
    apply fge_negative. apply hours_of_negative.
Qed.

(** ** Signs of rounded results *)

Lemma finish_sign (sx : bool) (m e : Z) : 0 <= m -> has_sign sx (finish sx m e).
Proof.
  destruct m as [ | p | p]; cbn [finish]; intros H; try lia; [reflexivity | ].
  destruct (_ <=? _); reflexivity.
Qed.

Lemma binary_round_aux_sign (sx : bool) (mx ex : Z) (lx : location) :
  0 <= mx -> has_sign sx (binary_round_aux prec emax sx mx ex lx).
Proof.
  intros Hm. destruct (binary_round_aux_spec sx mx ex lx Hm) as (m1 & B & _ & ->).
  cbv zeta. apply finish_sign. apply Z.div_pos; [ | apply pow2_pos; lia].
  assert (0 <= mx / 2 ^ Z.max 0 (FE (Zdigits2 mx + ex) - ex))
    by (apply Z.div_pos; [lia | apply pow2_pos; lia]).
  lia.
Qed.

Lemma SFmul_sign (sx sy : bool) (mx my : positive) (ex ey : Z) :
  has_sign (xorb sx sy) (SFmul prec emax (S754_finite sx mx ex) (S754_finite sy my ey)).
Proof. cbn [SFmul]. apply binary_round_aux_sign. lia. Qed.

Lemma trunc_finite_nonneg (m : positive) (e : Z) : 0 <= trunc_finite m e.
Proof.
  unfold trunc_finite. destruct e as [ | p | p].
  - lia.
  - pose proof (pow2_pos (Zpos p) ltac:(lia)). nia.
  - apply Z.div_pos; [lia | apply pow2_pos; lia].
Qed.

(** ** Rounding to two decimals *)

Lemma div_half_even_ge (n d : Z) : n / d <= div_half_even n d.
Proof.
  unfold div_half_even. destruct (2 * (n mod d) ?= d); [ | lia | lia].
  destruct (Z.even (n / d)); lia.
Qed.

Lemma div_half_even_pos (n d : Z) : 0 <= n -> 0 < d -> d < 2 * n -> 1 <= div_half_even n d.
Proof.
  intros Hn Hd H. pose proof (div_half_even_ge n d) as G.
  destruct (Z.eq_dec (n / d) 0) as [Hq | Hq].
  - unfold div_half_even. rewrite Hq.
    assert (Hr : n mod d = n) by (pose proof (Z.div_mod n d ltac:(lia)); nia).
    rewrite Hr. destruct (Z.compare_spec (2 * n) d); cbn; lia.
  - pose proof (Z.div_pos n d Hn Hd). lia.
Qed.

Lemma div_half_even_zero (n d : Z) : 0 <= n -> 2 * n < d -> div_half_even n d = 0.
Proof.
  intros Hn H. unfold div_half_even.
  rewrite Z.div_small, Z.mod_small by lia.
  destruct (Z.compare_spec (2 * n) d); lia.
Qed.

Lemma hundredths_nonneg (m : positive) (e : Z) : 0 <= hundredths m e.
Proof.
  unfold hundredths. destruct e as [ | p | p].
  - lia.
  - pose proof (pow2_pos (Zpos p) ltac:(lia)). nia.
  - eapply Z.le_trans; [ | apply div_half_even_ge].
    apply Z.div_pos; [lia | apply pow2_pos; lia].
Qed.

Lemma round2_finite (s : bool) (m : positive) (e : Z) :
  round2 (S754_finite s m e) = S754_zero s /\ hundredths m e = 0
  \/ exists n, hundredths m e = Zpos n
       /\ round2 (S754_finite s m e)
          = SFdiv prec emax (S754_finite s n 0) (S754_finite false 100 0).
Proof.
  cbn [round2]. pose proof (hundredths_nonneg m e) as H.
  destruct (hundredths m e) as [ | n | n]; try lia.
  - left. split; reflexivity.
  - right. exists n. split; reflexivity.
Qed.

(** Rounding keeps the sign bit. *)
Lemma round2_sign (s : bool) (x : float) : has_sign s x -> has_sign s (round2 x).
Proof.
  destruct x as [s' | s' | | s' m e]; cbn [has_sign]; intros H; try contradiction; subst;
    try reflexivity.
  destruct (round2_finite s m e) as [[-> _] | (n & _ & ->)]; [reflexivity | ].
  pose proof (SFdiv_sign s false n 100 0 0) as A. rewrite xorb_false_r in A. exact A.
Qed.

(** Rounding keeps a number at or above nine hours there. *)
Lemma round2_overdue (x : float) :
  mag_ge false x 5066549580791808 (-49) -> mag_ge false (round2 x) 5066549580791808 (-49).
Proof.
  intros [-> | (m & e & -> & Cm & Hv)]; [left; reflexivity | ].
  assert (H9 : vle 9 0 (Zpos m) e).
  { eapply vle_trans; [ | exact Hv]. unfold vle. apply Z.leb_le. reflexivity. }
  assert (HN : 900 <= hundredths m e).
  { unfold hundredths, vle in *. destruct e as [ | p | p].
    - change (Z.min 0 0) with 0 in H9. change (2 ^ (0 - 0)) with 1 in H9. lia.
    - replace (Z.min 0 (Zpos p)) with 0 in H9 by lia.
      change (2 ^ (0 - 0)) with 1 in H9. rewrite Z.sub_0_r in H9. lia.
    - replace (Z.min 0 (Zneg p)) with (Zneg p) in H9 by lia.
      change (0 - Zneg p) with (Zpos p) in H9. rewrite Z.sub_diag, Z.pow_0_r in H9.
      eapply Z.le_trans; [ | apply div_half_even_ge].
      apply Z.div_le_lower_bound; [apply pow2_pos; lia | lia]. }
  destruct (round2_finite false m e) as [[_ Hz] | (n & Hn & ->)]; [lia | ].
  change false with (xorb false false) at 1.
  apply SFdiv_lower; [lia | reflexivity | ].
  unfold vle. change (Z.min (-49 + 0) 0) with (-49).
  change (2 ^ (-49 + 0 - -49)) with 1. change (2 ^ (0 - -49)) with 562949953421312. lia.
Qed.

(** A canonical number above another is that number or at least the next. *)
Lemma canonical_next (pf : Z) (ef : Z) (m : Z) (e : Z) :
  0 < pf -> 0 < m -> canonical pf ef -> canonical m e -> vle pf ef m e ->
  (m = pf /\ e = ef) \/ vle (pf + 1) ef m e.
Proof.
  intros Hf Hm Cf Cm H.
  pose proof (vle_magnitude pf ef m e Hf (Z.lt_le_incl _ _ Hm) H) as Hmag.
  assert (He : ef <= e) by (rewrite <- Cf, <- Cm; apply FE_mono; exact Hmag).
  destruct (canonical_bounds pf ef Hf Cf) as (Uf & Lf & Nf).
  destruct (canonical_bounds m e Hm Cm) as (Um & Lm & Nm).
  apply (vle_scale _ _ _ _ ef) in H; [ | lia].
  rewrite Z.sub_diag, Z.pow_0_r, Z.mul_1_r in H.
  destruct (Z.eq_dec e ef) as [-> | Hne].
  - rewrite Z.sub_diag, Z.pow_0_r, Z.mul_1_r in H.
    destruct (Z.eq_dec m pf) as [-> | Hnm]; [left; split; reflexivity | right].
    apply (vle_scale _ _ _ _ ef); [lia | ].
    rewrite Z.sub_diag, Z.pow_0_r, !Z.mul_1_r. lia.
  - right. apply (vle_scale _ _ _ _ ef); [lia | ].
    rewrite Z.sub_diag, Z.pow_0_r, Z.mul_1_r.
    specialize (Nm ltac:(lia)).
    assert (2 <= 2 ^ (e - ef)) by (change 2 with (2 ^ 1) at 1; apply pow2_le; lia).
    nia.
Qed.

(** ** Elapsed hours of a start in the future *)

Lemma hours_of_far_ahead (us : positive) :
  eighteen_seconds <= Zpos us ->
  mag_ge true (hours_of (Zneg us)) 5764607523034235 (-60).
Proof.
  intros H. unfold hours_of, total_seconds, Z_truediv, int_truediv.
  rewrite float_of_3600.
  assert (A : mag_ge (xorb true false)
                (SFdiv prec emax (S754_finite true us 0) (S754_finite false 1000000 0))
                5066549580791808 (-48)).
  { apply SFdiv_lower; [lia | reflexivity | ].
    unfold vle. change (Z.min (-48 + 0) 0) with (-48).
    change (2 ^ (-48 + 0 - -48)) with 1. change (2 ^ (0 - -48)) with 281474976710656.
    unfold eighteen_seconds, us_per_second in H. lia. }
  cbn [xorb] in A. destruct A as [-> | (m & e & -> & Cm & Hv)].
  - left. reflexivity.
  - destruct (canonical_next 5066549580791808 (-48) (Zpos m) e) as [[Hm ->] | Hn];
      try lia; try assumption; try reflexivity.
    + injection Hm as ->. right.
      exists 5764607523034235%positive, (-60). split; [reflexivity | split; [reflexivity | ]].
      apply vle_refl.
    + unfold fdiv, f3600. change true with (xorb true false) at 1.
      apply SFdiv_lower; [lia | reflexivity | ].
      eapply vle_trans; [ | exact Hn].
      unfold vle. apply Z.leb_le. reflexivity.
Qed.

Lemma hours_of_near_ahead (us : positive) :
  Zpos us < eighteen_seconds ->
  mag_le true (hours_of (Zneg us)) 5764607523034234 (-60).
Proof.
  intros H. unfold hours_of, total_seconds, Z_truediv, int_truediv.
  rewrite float_of_3600.
  assert (A : mag_le (xorb true false)
                (SFdiv prec emax (S754_finite true us 0) (S754_finite false 1000000 0))
                5066549299316832 (-48)).
  { apply SFdiv_upper; [lia | reflexivity | lia | ].
    unfold vle. change (Z.min 0 (-48 + 0)) with (-48).
    change (2 ^ (-48 + 0 - -48)) with 1. change (2 ^ (0 - -48)) with 281474976710656.
    unfold eighteen_seconds, us_per_second in H. lia. }
  cbn [xorb] in A. destruct A as [-> | (m & e & -> & Cm & Hv)].
  - left. reflexivity.
  - unfold fdiv, f3600. change true with (xorb true false) at 1.
    apply SFdiv_upper; [lia | reflexivity | lia | ].
    eapply vle_trans; [exact Hv | ].
    unfold vle. apply Z.leb_le. reflexivity.
Qed.

(** The rounded elapsed hours of a start in the future are below zero from
    eighteen seconds on, and the negative zero before. *)
Lemma round2_far_ahead (x : float) :
  mag_ge true x 5764607523034235 (-60) -> flt (round2 x) (S754_zero false) = true.
Proof.
  intros [-> | (m & e & -> & Cm & Hv)]; [reflexivity | ].
  assert (HN : 1 <= hundredths m e).
  { unfold hundredths. destruct e as [ | p | p].
    - lia.
    - pose proof (pow2_pos (Zpos p) ltac:(lia)). nia.
    - apply div_half_even_pos; [lia | apply pow2_pos; lia | ].
      set (k := Z.min (-60) (Zneg p)).
      apply (proj1 (vle_scale _ _ _ _ k (Z.le_refl _))) in Hv.
      pose proof (pow2_pos (-60 - k) ltac:(lia)) as P1.
      pose proof (pow2_pos (Zneg p - k) ltac:(lia)) as P2.
      assert (E1 : 2 ^ 60 * 2 ^ (-60 - k) = 2 ^ Zpos p * 2 ^ (Zneg p - k)).
      { rewrite <- !pow2_split by lia. f_equal. lia. }
      change (2 ^ 60) with 1152921504606846976 in E1.
      apply (Z.mul_lt_mono_pos_r (2 ^ (Zneg p - k))); [lia | ]. nia. }
  destruct (round2_finite true m e) as [[_ Hz] | (n & Hn & ->)]; [lia | ].
  assert (A : mag_ge (xorb true false)
                (SFdiv prec emax (S754_finite true n 0) (S754_finite false 100 0))
                4503599627370496 (-59)).
  { apply SFdiv_lower; [lia | reflexivity | ].
    unfold vle. change (Z.min (-59 + 0) 0) with (-59).
    change (2 ^ (-59 + 0 - -59)) with 1. change (2 ^ (0 - -59)) with 576460752303423488. lia. }
  cbn [xorb] in A. destruct A as [-> | (m' & e' & -> & _)]; reflexivity.
Qed.

Lemma round2_near_ahead (x : float) :
  mag_le true x 5764607523034234 (-60) -> round2 x = S754_zero true.
Proof.
  intros [-> | (m & e & -> & Cm & Hv)]; [reflexivity | ].
  assert (HN : hundredths m e = 0).
  { assert (He : e < 0).
    { pose proof (vle_magnitude (Zpos m) e 5764607523034234 (-60) ltac:(lia) ltac:(lia) Hv) as Hmag.
      change (Zdigits2 5764607523034234) with 53 in Hmag.
      pose proof (Zdigits2_pos (Zpos m) ltac:(lia)). lia. }
    unfold hundredths. destruct e as [ | p | p]; try lia.
    apply div_half_even_zero; [lia | ].
    set (k := Z.min (Zneg p) (-60)).
    apply (proj1 (vle_scale _ _ _ _ k (Z.le_refl _))) in Hv.
    pose proof (pow2_pos (-60 - k) ltac:(lia)) as P1.
    pose proof (pow2_pos (Zneg p - k) ltac:(lia)) as P2.
    assert (E1 : 2 ^ 60 * 2 ^ (-60 - k) = 2 ^ Zpos p * 2 ^ (Zneg p - k)).
    { rewrite <- !pow2_split by lia. f_equal. lia. }
    change (2 ^ 60) with 1152921504606846976 in E1.
    apply (Z.mul_lt_mono_pos_r (2 ^ (Zneg p - k))); [lia | ]. nia. }
  destruct (round2_finite true m e) as [[-> _] | (n & Hn & _)]; [reflexivity | lia].
Qed.

(** * Timestamps *)

Lemma is_naive_tzinfo (d : datetime) :
  Timezone.is_naive d = match tzinfo_of d with None => true | Some _ => false end.
Proof. unfold Timezone.is_naive, utcoffset. destruct (tzinfo_of d); reflexivity. Qed.

Lemma ensure_aware_tzinfo (amb : Timezone.ambient) (d : datetime) :
  exists tz, tzinfo_of (ensure_aware amb d) = Some tz.
Proof.
  unfold ensure_aware. rewrite is_naive_tzinfo.
  destruct (tzinfo_of d) as [tz | ] eqn:E.
  - exists tz. exact E.
  - exists (Timezone.current_timezone amb). reflexivity.
Qed.

Lemma ensure_aware_is_aware (amb : Timezone.ambient) (d : datetime) :
  Timezone.is_naive (ensure_aware amb d) = false.
Proof.
  rewrite is_naive_tzinfo. destruct (ensure_aware_tzinfo amb d) as [tz ->]. reflexivity.
Qed.

Lemma ensure_aware_wall (amb : Timezone.ambient) (d : datetime) :
  wall (ensure_aware amb d) = wall d.
Proof. unfold ensure_aware. destruct (Timezone.is_naive d); reflexivity. Qed.

Lemma dt_sub_aware (a b : datetime) :
  Timezone.is_naive a = false -> Timezone.is_naive b = false ->
  dt_sub a b = Ok (aware_diff a b).
Proof.
  unfold Timezone.is_naive, dt_sub, aware_diff, instant, offset_of.
  destruct (utcoffset a) as [oa | ]; [ | discriminate].
  destruct (utcoffset b) as [ob | ]; [ | discriminate].
  intros _ _. destruct (same_tzinfo a b); [reflexivity | f_equal; lia].
Qed.

Lemma same_tzinfo_shifted (amb : Timezone.ambient) (t : datetime) (td : timedelta) :
  same_tzinfo (ensure_aware amb (shifted t td)) (ensure_aware amb t) = true.
Proof.
  unfold ensure_aware. rewrite !is_naive_tzinfo. cbn [shifted tzinfo_of].
  unfold same_tzinfo.
  destruct (tzinfo_of t) as [tz | ] eqn:E;
    cbn [Timezone.make_aware shifted tzinfo_of]; rewrite ?E; apply N.eqb_refl.
Qed.

Lemma elapsed_shifted (amb : Timezone.ambient) (t : datetime) (td : timedelta) :
  elapsed amb t (shifted t td) = td.
Proof.
  unfold elapsed, aware_diff. rewrite same_tzinfo_shifted, !ensure_aware_wall.
  cbn [shifted wall]. lia.
Qed.

Lemma aware_diff_faithful (a b : datetime) :
  faithful a b = true -> aware_diff a b = instant a - instant b.
Proof.
  unfold faithful, aware_diff, instant. destruct (same_tzinfo a b); cbn [implb]; [ | reflexivity].
  intros H. apply Z.eqb_eq in H. lia.
Qed.

(** * The overdue check *)

Lemma is_order_overdue_elapsed (amb : Timezone.ambient) (s n : datetime) :
  is_order_overdue amb (Some s) (Some n) = Ok (nine_hours <=? elapsed amb s n).
Proof.
  unfold is_order_overdue. fold (ensure_aware amb s). fold (ensure_aware amb n).
  rewrite dt_sub_aware by apply ensure_aware_is_aware. cbn [bind].
  fold (hours_of (aware_diff (ensure_aware amb n) (ensure_aware amb s))).
  rewrite overdue_threshold. reflexivity.
Qed.

(** C2. For started_at and now both present, [is_order_overdue] is true
    exactly when the elapsed time [now - started_at], taken after the two
    are made aware, is at least nine hours; an absent now is the reading of
    the clock; the answer is false at [t, t], true at [t, t + 9 hours] and
    false at [t, t + 8 hours 59 minutes]. *)
Theorem is_order_overdue_nine_hours (amb : Timezone.ambient) (t now : datetime) :
  is_order_overdue amb (Some t) (Some now) = Ok (nine_hours <=? elapsed amb t now)
  /\ is_order_overdue amb (Some t) None
     = Ok (nine_hours <=? elapsed amb t (Timezone.clock amb))
  /\ is_order_overdue amb (Some t) (Some t) = Ok false
  /\ is_order_overdue amb (Some t) (Some (shifted t (9 * us_per_hour))) = Ok true
  /\ is_order_overdue amb (Some t) (Some (shifted t (8 * us_per_hour + 59 * us_per_minute)))
     = Ok false.
Proof.
  repeat split.
  - apply is_order_overdue_elapsed.
  - apply (is_order_overdue_elapsed amb t (Timezone.clock amb)).
  - rewrite is_order_overdue_elapsed. f_equal.
    unfold elapsed, aware_diff.
    assert (E : same_tzinfo (ensure_aware amb t) (ensure_aware amb t) = true).
    { unfold same_tzinfo. destruct (ensure_aware_tzinfo amb t) as [tz ->]. apply N.eqb_refl. }
    rewrite E, Z.sub_diag. reflexivity.
  - rewrite is_order_overdue_elapsed, elapsed_shifted. reflexivity.
  - rewrite is_order_overdue_elapsed, elapsed_shifted. reflexivity.
Qed.

Lemma same_tzinfo_aware_trans (a b c : datetime) :
  same_tzinfo a c = true -> same_tzinfo b c = true -> same_tzinfo a b = true.
Proof.
  unfold same_tzinfo.
  destruct (tzinfo_of a) as [ta | ], (tzinfo_of b) as [tb | ], (tzinfo_of c) as [tc | ];
    try discriminate; try reflexivity.
  intros H1 H2. apply N.eqb_eq in H1. apply N.eqb_eq in H2. apply N.eqb_eq. congruence.
Qed.

Lemma dt_le_instant (a b : datetime) :
  Timezone.is_naive a = false -> Timezone.is_naive b = false ->
  faithful a b = true -> dt_le a b = Ok true -> instant a <= instant b.
Proof.
  unfold Timezone.is_naive, dt_le, faithful, instant, offset_of.
  destruct (utcoffset a) as [oa | ]; [ | discriminate].
  destruct (utcoffset b) as [ob | ]; [ | discriminate].
  intros _ _. destruct (same_tzinfo a b); cbn [implb];
    intros F Hle; injection Hle as Hle; apply Z.leb_le in Hle.
  - apply Z.eqb_eq in F. lia.
  - lia.
Qed.

(** The elapsed time grows with now when the three timestamps are
    compatible. *)
Lemma elapsed_monotone (amb : Timezone.ambient) (t now1 now2 : datetime) :
  compatible amb t now1 now2 = true ->
  dt_le (ensure_aware amb now1) (ensure_aware amb now2) = Ok true ->
  elapsed amb t now1 <= elapsed amb t now2.
Proof.
  unfold compatible. intros C Hle. apply orb_true_iff in C. destruct C as [C | C].
  - apply andb_true_iff in C. destruct C as [S1 S2].
    pose proof (same_tzinfo_aware_trans _ _ _ S1 S2) as S12.
    unfold dt_le in Hle. rewrite S12 in Hle. injection Hle as Hle. apply Z.leb_le in Hle.
    unfold elapsed, aware_diff. rewrite S1, S2. lia.
  - apply andb_true_iff in C. destruct C as [C F12].
    apply andb_true_iff in C. destruct C as [F1 F2].
    unfold elapsed. rewrite !aware_diff_faithful by assumption.
    pose proof (dt_le_instant _ _ (ensure_aware_is_aware amb now1)
                  (ensure_aware_is_aware amb now2) F12 Hle).
    lia.
Qed.

(** Three naive timestamps are compatible, whatever the current time zone,
    and making them aware keeps their order. *)
Lemma naive_compatible (amb : Timezone.ambient) (t now1 now2 : datetime) :
  Timezone.is_naive t = true ->
  Timezone.is_naive now1 = true ->
  Timezone.is_naive now2 = true ->
  compatible amb t now1 now2 = true
  /\ dt_le (ensure_aware amb now1) (ensure_aware amb now2) = dt_le now1 now2.
Proof.
  intros N0 N1 N2. unfold compatible, ensure_aware. rewrite N0, N1, N2.
  rewrite is_naive_tzinfo in N1, N2.
  unfold dt_le, same_tzinfo. cbn [Timezone.make_aware tzinfo_of wall].
  destruct (tzinfo_of now1); [discriminate | ].
  destruct (tzinfo_of now2); [discriminate | ].
  rewrite N.eqb_refl. split; reflexivity.
Qed.

(** C8. An order overdue at now1 is overdue at every now2 that is not
    before now1 when the three timestamps are compatible: once aware, they
    all carry one [tzinfo] object, or any two of them that carry one
    [tzinfo] object have one UTC offset.  Three naive timestamps always
    are, whatever the current time zone. *)
Theorem is_order_overdue_monotone (amb : Timezone.ambient) (t now1 now2 : datetime) :
  (compatible amb t now1 now2 = true ->
   dt_le (ensure_aware amb now1) (ensure_aware amb now2) = Ok true ->
   is_order_overdue amb (Some t) (Some now1) = Ok true ->
   is_order_overdue amb (Some t) (Some now2) = Ok true)
  /\ (Timezone.is_naive t = true ->
      Timezone.is_naive now1 = true ->
      Timezone.is_naive now2 = true ->
      dt_le now1 now2 = Ok true ->
      is_order_overdue amb (Some t) (Some now1) = Ok true ->
      is_order_overdue amb (Some t) (Some now2) = Ok true).
Proof.
  assert (M : compatible amb t now1 now2 = true ->
              dt_le (ensure_aware amb now1) (ensure_aware amb now2) = Ok true ->
              is_order_overdue amb (Some t) (Some now1) = Ok true ->
              is_order_overdue amb (Some t) (Some now2) = Ok true).
  { intros C Hle H1. rewrite is_order_overdue_elapsed in *. injection H1 as H1. f_equal.
    apply Z.leb_le in H1. apply Z.leb_le.
    pose proof (elapsed_monotone amb t now1 now2 C Hle). lia. }
  split; [exact M | ].
  intros N0 N1 N2 Hle. destruct (naive_compatible amb t now1 now2 N0 N1 N2) as [C E].
  apply M; [exact C | rewrite E; exact Hle].
Qed.

(** * The overdue status *)

Lemma get_order_overdue_status_present {F : Type} (amb : Timezone.ambient)
  (s : datetime) (f : F) :
  get_order_overdue_status amb (mk_order (Some s) f)
  = (Ok (status_of (elapsed amb s (Timezone.clock amb))), mk_order (Some s) f).
Proof.
  unfold get_order_overdue_status, bindM, read_started_at, ret, lift.
  cbn [started_at]. unfold Timezone.now.
  fold (ensure_aware amb s). fold (ensure_aware amb (Timezone.clock amb)).
  rewrite dt_sub_aware by apply ensure_aware_is_aware.
  fold (elapsed amb s (Timezone.clock amb)).
  fold (hours_of (elapsed amb s (Timezone.clock amb))).
  rewrite overdue_threshold. unfold status_of.
  destruct (nine_hours <=? elapsed amb s (Timezone.clock amb)); reflexivity.
Qed.

Lemma has_sign_signbit (s : bool) (r : float) : has_sign s r -> signbit r = s.
Proof. destruct r; cbn; intros H; try contradiction; exact H. Qed.

(** C1, as the code has it.  For an order with a start, and [td] the
    elapsed time at the reading of the clock: is_overdue tells whether the
    unrounded [td] is at least nine hours; hours_elapsed is the elapsed
    hours rounded to two decimals; overdue_by_hours is the rounded excess
    over nine hours when overdue and [0.0] otherwise; an overdue order
    has hours_elapsed at least 9; and ten elapsed hours give
    hours_elapsed 10.0 and overdue_by_hours 1.0. *)
Theorem overdue_status_fields {F : Type} (amb : Timezone.ambient) (s : datetime) (f : F) :
  let td := elapsed amb s (Timezone.clock amb) in
  overdue_status amb (mk_order (Some s) f)
  = Ok (mk_status (nine_hours <=? td) (round2 (hours_of td))
          (if nine_hours <=? td
           then round2 (fsub (hours_of td) (float_of_Z OVERDUE_THRESHOLD_HOURS))
           else S754_zero false))
  /\ implb (nine_hours <=? td)
       (fge (round2 (hours_of td)) (float_of_Z OVERDUE_THRESHOLD_HOURS)) = true
  /\ overdue_status
       (Timezone.mk_ambient (Timezone.current_timezone amb) (shifted s (10 * us_per_hour)))
       (mk_order (Some s) f)
     = Ok (mk_status true f10 f1).
Proof.
  intros td. repeat split.
  - unfold overdue_status. rewrite get_order_overdue_status_present. reflexivity.
  - destruct (Z.leb_spec nine_hours td) as [H | H]; [ | reflexivity].
    cbn [implb]. rewrite float_of_9. apply fge_mag_ge; [reflexivity | ].
    apply round2_overdue.
    destruct td as [ | p | p]; try (unfold nine_hours, us_per_hour, us_per_second in H; lia).
    apply hours_of_overdue. exact H.
  - unfold overdue_status. rewrite get_order_overdue_status_present.
    cbn [fst Timezone.clock]. rewrite elapsed_shifted. reflexivity.
Qed.

(** C9, as the code has it.  When the start lies after the reading of the
    clock, is_overdue is false, overdue_by_hours is [0.0], and
    hours_elapsed is the signed elapsed hours rounded to two decimals,
    never clamped: its sign bit is set, it is below zero exactly when the
    start is eighteen seconds or more ahead, and it is the negative zero
    [-0.0] otherwise. *)
Theorem overdue_status_future_start {F : Type} (amb : Timezone.ambient)
  (s : datetime) (f : F) :
  let td := elapsed amb s (Timezone.clock amb) in
  td < 0 ->
  overdue_status amb (mk_order (Some s) f)
  = Ok (mk_status false (round2 (hours_of td)) (S754_zero false))
  /\ signbit (round2 (hours_of td)) = true
  /\ flt (round2 (hours_of td)) (float_of_Z 0) = (td <=? - eighteen_seconds)
  /\ round2 (hours_of td)
     = (if td <=? - eighteen_seconds then round2 (hours_of td) else S754_zero true).
Proof.
  intros td Hneg. unfold overdue_status. rewrite get_order_overdue_status_present.
  fold td. destruct td as [ | p | p]; try lia. clear Hneg.
  assert (Hs : has_sign true (round2 (hours_of (Zneg p))))
    by (apply round2_sign, hours_of_negative).
  split; [reflexivity | split; [apply has_sign_signbit; exact Hs | ]].
  change (float_of_Z 0) with (S754_zero false).
  destruct (Z.leb_spec (Zneg p) (- eighteen_seconds)) as [H | H].
  - split; [ | reflexivity].
    apply round2_far_ahead, hours_of_far_ahead. lia.
  - assert (E : round2 (hours_of (Zneg p)) = S754_zero true)
      by (apply round2_near_ahead, hours_of_near_ahead; lia).
    rewrite E. split; reflexivity.
Qed.

(** * Absent start time *)

(** C5. With no start time nothing is raised: [is_order_overdue] returns
    false whatever now is, [get_order_overdue_status] returns the status
    with false and two zeros, and [estimate_completion_time] returns
    nothing. *)
Theorem absent_start_defaults {F : Type} (amb : Timezone.ambient)
  (now : option datetime) (f : F) (estimated_minutes : option Z) :
  is_order_overdue amb None now = Ok false
  /\ overdue_status amb (mk_order None f)
     = Ok (mk_status false (S754_zero false) (S754_zero false))
  /\ estimate_completion_time None estimated_minutes = Ok None.
Proof. repeat split. Qed.

(** * The order is only read *)

(** C6. [get_order_overdue_status] gives the order back as it received
    it: the start time and every other field are unchanged, whether the
    call returns or not. *)
Theorem get_order_overdue_status_frame {F : Type} (amb : Timezone.ambient) (order : Order F) :
  snd (get_order_overdue_status amb order) = order
  /\ started_at (snd (get_order_overdue_status amb order)) = started_at order
  /\ other_fields (snd (get_order_overdue_status amb order)) = other_fields order.
Proof.
  assert (E : snd (get_order_overdue_status amb order) = order).
  { destruct order as [[s | ] f].
    - rewrite get_order_overdue_status_present. reflexivity.
    - reflexivity. }
  rewrite E. repeat split.
Qed.

(** * Formatting a duration *)

Lemma float_of_60 : float_of_Z 60 = f60.
Proof. reflexivity. Qed.

(** A product that is not below zero has no negative minutes. *)
Lemma minutes_sign (hours : float) (s : bool) (m : positive) (e : Z) :
  flt hours (float_of_Z 0) = false ->
  fmul hours (float_of_Z 60) = S754_finite s m e -> s = false.
Proof.
  rewrite float_of_60. unfold f60, fmul.
  destruct hours as [sh | sh | | sh mh eh]; try discriminate.
  destruct sh; [discriminate | ]. intros _ H.
  pose proof (SFmul_sign false false mh 8444249301319680 eh (-47)) as S.
  rewrite H in S. exact S.
Qed.

(** C4, as the code has it.  A float below zero yields ["0h"].  Any other
    float is multiplied by 60; a product that is not a number or is
    infinite raises (a NaN, positive infinity, or a float too large), and
    otherwise the product is truncated to whole minutes, split into hours
    and minutes, and rendered by the parts that are zero.  In particular
    0 gives ["0h"], 1.5 gives ["1h 30m"], -1 gives ["0h"] and 0.25 gives
    ["15m"]. *)
Theorem format_hours_rendering (hours : float) :
  format_hours hours
  = (if flt hours (float_of_Z 0) then Ok "0h"%string
     else match fmul hours (float_of_Z 60) with
          | S754_nan => Raise ValueError
          | S754_infinity _ => Raise OverflowError
          | S754_zero _ => Ok "0h"%string
          | S754_finite _ m e =>
              Ok (render_duration (trunc_finite m e / 60) (trunc_finite m e mod 60))
          end)
  /\ returns (format_hours hours)
     = (flt hours (float_of_Z 0) || is_finite (fmul hours (float_of_Z 60)))
  /\ format_hours (float_of_Z 0) = Ok "0h"%string
  /\ format_hours (fdiv (float_of_Z 3) (float_of_Z 2)) = Ok "1h 30m"%string
  /\ format_hours (float_of_Z (-1)) = Ok "0h"%string
  /\ format_hours (fdiv (float_of_Z 1) (float_of_Z 4)) = Ok "15m"%string.
Proof.
  assert (E : format_hours hours
    = (if flt hours (float_of_Z 0) then Ok "0h"%string
       else match fmul hours (float_of_Z 60) with
            | S754_nan => Raise ValueError
            | S754_infinity _ => Raise OverflowError
            | S754_zero _ => Ok "0h"%string
            | S754_finite _ m e =>
                Ok (render_duration (trunc_finite m e / 60) (trunc_finite m e mod 60))
            end)).
  { unfold format_hours. destruct (flt hours (float_of_Z 0)) eqn:Hlt; [reflexivity | ].
    destruct (fmul hours (float_of_Z 60)) as [s | s | | s m e] eqn:Hm; try reflexivity.
    rewrite (minutes_sign hours s m e Hlt Hm). cbn [int_of_float bind cond_Zopp].
    unfold render_duration.
    destruct (trunc_finite m e / 60 =? 0), (trunc_finite m e mod 60 =? 0); reflexivity. }
  split; [exact E | split; [ | repeat split]].
  rewrite E. destruct (flt hours (float_of_Z 0)); [reflexivity | ].
  destruct (fmul hours (float_of_Z 60)); reflexivity.
Qed.

(** * Estimating the completion *)

Lemma all_from_spec (P : Z -> bool) (n : nat) (lo : Z) :
  all_from lo n P = true -> forall m, lo <= m < lo + Z.of_nat n -> P m = true.
Proof.
  revert lo. induction n as [ | n IH]; intros lo H m Hm; [lia | ].
  cbn [all_from] in H. apply andb_true_iff in H. destruct H as [H0 H1].
  destruct (Z.eq_dec m lo) as [-> | Hne]; [exact H0 | ].
  apply (IH (lo + 1) H1). lia.
Qed.

Lemma minutes_exact_one_week : all_from 0 (Z.to_nat (one_week + 1)) minutes_exact = true.
Proof. vm_compute. reflexivity. Qed.

Lemma estimate_completion_time_unfold (s : datetime) (m : option Z) :
  estimate_completion_time (Some s) m
  = (x <- float_of_int (match m with None => OVERDUE_THRESHOLD_HOURS * 60 | Some k => k end) ;;
     td <- timedelta_of_hours (fdiv x (float_of_Z 60)) ;;
     if in_range (shifted s td)
     then text <- format_hours (fdiv x (float_of_Z 60)) ;;
          Ok (Some (mk_estimate (shifted s td) (fdiv x (float_of_Z 60)) text))
     else Raise OverflowError).
Proof.
  unfold estimate_completion_time.
  destruct (float_of_int _) as [x | e]; [ | reflexivity]. cbn [bind].
  destruct (timedelta_of_hours _) as [td | e]; [ | reflexivity]. cbn [bind].
  unfold dt_add. fold (shifted s td).
  destruct (in_range (shifted s td)); reflexivity.
Qed.


(** C10. [estimate_completion_time] never touches the time zone: the end
    it returns carries the tzinfo of the start, naive for a naive start and
    aware for an aware one.  The overdue functions, instead, work on the
    timestamps made aware. *)
Theorem estimate_completion_time_keeps_tzinfo (s : datetime) (m : option Z)
  (r : CompletionEstimate) :
  estimate_completion_time (Some s) m = Ok (Some r) ->
  tzinfo_of (estimated_end r) = tzinfo_of s
  /\ Timezone.is_naive (estimated_end r) = Timezone.is_naive s
  /\ (forall amb d, Timezone.is_naive (ensure_aware amb d) = false)
  /\ (forall amb t now,
        is_order_overdue amb (Some t) (Some now)
        = is_order_overdue amb (Some (ensure_aware amb t)) (Some (ensure_aware amb now)))
  /\ (forall amb t,
        overdue_status amb (mk_order (Some t) tt)
        = overdue_status amb (mk_order (Some (ensure_aware amb t)) tt)).
Proof.
  intros H. rewrite estimate_completion_time_unfold in H.
  destruct (float_of_int _) as [x | e]; [ | discriminate]. cbn [bind] in H.
  destruct (timedelta_of_hours _) as [td | e]; [ | discriminate]. cbn [bind] in H.
  destruct (in_range (shifted s td)); [ | discriminate].
  destruct (format_hours _) as [text | e]; [ | discriminate]. cbn [bind] in H.
  injection H as <-. cbn [estimated_end].
  assert (I : forall amb d, ensure_aware amb (ensure_aware amb d) = ensure_aware amb d).
  { intros amb d. unfold ensure_aware at 1. rewrite ensure_aware_is_aware. reflexivity. }
  split; [reflexivity | split; [ | split; [ | split]]].
  - rewrite !is_naive_tzinfo. reflexivity.
  - apply ensure_aware_is_aware.
  - intros amb t now. rewrite !is_order_overdue_elapsed. unfold elapsed. rewrite !I. reflexivity.
  - intros amb t. unfold overdue_status. rewrite !get_order_overdue_status_present.
    unfold elapsed. rewrite !I. reflexivity.
Qed.

(** * Determinism *)

(** C7, as the code has it.  The outcome of a call with explicit inputs
    does not depend on the clock: two runs under one current time zone
    agree whatever the clock reads, and [format_hours] and
    [estimate_completion_time] read nothing ambient at all.  A call whose
    two timestamps are both naive or both aware does not depend on the
    current time zone either; a call that mixes a naive and an aware
    timestamp does, through [make_aware]. *)
Theorem run_deterministic (tz : tzinfo) (clock1 clock2 : datetime) (c : call) :
  run (Timezone.mk_ambient tz clock1) c = run (Timezone.mk_ambient tz clock2) c
  /\ (forall amb1 amb2 h,
        run amb1 (Call_format_hours h) = run amb2 (Call_format_hours h))
  /\ (forall amb1 amb2 s m,
        run amb1 (Call_estimate_completion_time s m)
        = run amb2 (Call_estimate_completion_time s m))
  /\ (forall amb1 amb2, zone_free c = true -> run amb1 c = run amb2 c).
Proof.
  split; [ | split; [reflexivity | split; [reflexivity | ]]].
  - destruct c as [[s | ] n | h | s m]; reflexivity.
  - intros amb1 amb2 Hz. destruct c as [[s | ] n | h | s m]; try reflexivity.
    cbn [run zone_free] in *. rewrite !is_order_overdue_elapsed. do 2 f_equal.
    unfold elapsed, aware_diff, ensure_aware.
    apply Bool.eqb_prop in Hz. rewrite <- Hz.
    destruct (Timezone.is_naive s); [ | reflexivity].
    unfold same_tzinfo. cbn [Timezone.make_aware tzinfo_of wall].
    rewrite !N.eqb_refl. reflexivity.
Qed.

(** * Further properties *)

(** ** Numbers and their signs *)

Lemma has_sign_not_nan (s : bool) (r : float) : has_sign s r -> is_nan r = false.
Proof. destruct r; cbn; intros H; try contradiction; reflexivity. Qed.

Lemma iter_xO_pow2 (d m : positive) : Zpos (Pos.iter xO m d) = Zpos m * 2 ^ Zpos d.
Proof.
  induction d as [ | d IH] using Pos.peano_ind.
  - cbn [Pos.iter]. rewrite (Pos2Z.inj_xO m). change (2 ^ 1) with 2. lia.
  - rewrite Pos.iter_succ, (Pos2Z.inj_xO (Pos.iter xO m d)), IH, Pos2Z.inj_succ.
    replace (Z.succ (Zpos d)) with (1 + Zpos d) by lia.
    rewrite pow2_split by lia. change (2 ^ 1) with 2. lia.
Qed.

(** The mantissa [shl_align] gives at a lower exponent. *)
Lemma shl_align_fst (mx : positive) (ex ez : Z) :
  ez <= ex -> Zpos (fst (shl_align mx ex ez)) = Zpos mx * 2 ^ (ex - ez).
Proof.
  intros H. unfold shl_align.
  destruct (ez - ex) as [ | d | d] eqn:E; cbn [fst]; try lia.
  - replace (ex - ez) with 0 by lia. rewrite Z.pow_0_r. lia.
  - rewrite iter_xO_pow2. f_equal. f_equal. lia.
Qed.

Lemma binary_round_sign (sx : bool) (mx : positive) (ex : Z) :
  has_sign sx (binary_round prec emax sx mx ex).
Proof.
  unfold binary_round. destruct (shl_align mx ex _) as [mz ez].
  apply binary_round_aux_sign. lia.
Qed.

Lemma binary_normalize_number (z e : Z) (sz : bool) :
  is_nan (binary_normalize prec emax z e sz) = false.
Proof.
  destruct z as [ | p | p]; cbn [binary_normalize]; [reflexivity | | ];
    eapply has_sign_not_nan; apply binary_round_sign.
Qed.

Lemma float_of_Z_number (n : Z) : is_nan (float_of_Z n) = false.
Proof. apply binary_normalize_number. Qed.

Lemma fdiv_finite_number (x : float) (sy : bool) (my : positive) (ey : Z) :
  is_nan x = false -> is_nan (fdiv x (S754_finite sy my ey)) = false.
Proof.
  destruct x as [s | s | | s m e]; try discriminate; intros _; try reflexivity.
  eapply has_sign_not_nan. apply SFdiv_sign.
Qed.

Lemma fmul_finite_number (x : float) (sy : bool) (my : positive) (ey : Z) :
  is_nan x = false -> is_nan (fmul x (S754_finite sy my ey)) = false.
Proof.
  destruct x as [s | s | | s m e]; try discriminate; intros _; try reflexivity.
  eapply has_sign_not_nan. apply SFmul_sign.
Qed.

Lemma fmul_finite_number_l (x : float) (sy : bool) (my : positive) (ey : Z) :
  is_nan x = false -> is_nan (fmul (S754_finite sy my ey) x) = false.
Proof.
  destruct x as [s | s | | s m e]; try discriminate; intros _; try reflexivity.
  eapply has_sign_not_nan. apply SFmul_sign.
Qed.

(** The elapsed hours carry the sign of the elapsed time. *)
Lemma hours_of_sign (td : timedelta) : has_sign (td <? 0) (hours_of td).
Proof.
  destruct td as [ | us | us].
  - reflexivity.
  - change (Zpos us <? 0) with false.
    unfold hours_of, total_seconds, Z_truediv, int_truediv. rewrite float_of_3600.
    pose proof (SFdiv_sign false false us 1000000 0 0) as A. cbn [xorb] in A.
    destruct (SFdiv prec emax (S754_finite false us 0) (S754_finite false 1000000 0))
      as [s | s | | s m e]; cbn in A; try contradiction; subst; try reflexivity.
    unfold fdiv, f3600. apply (SFdiv_sign false false).
  - apply hours_of_negative.
Qed.

(** A float at or above nine leaves a difference with no sign bit. *)
Lemma fsub_nine_sign (x : float) :
  mag_ge false x 5066549580791808 (-49) -> has_sign false (fsub x f9).
Proof.
  intros [-> | (m & e & -> & Cm & Hv)]; [reflexivity | ].
  unfold fsub, f9. cbn [SFsub cond_Zopp].
  set (ez := Z.min e (-49)).
  rewrite !shl_align_fst by (unfold ez; lia).
  apply (proj1 (vle_scale 5066549580791808 (-49) (Zpos m) e ez ltac:(unfold ez; lia))) in Hv.
  destruct (Zpos m * 2 ^ (e - ez) - 5066549580791808 * 2 ^ (-49 - ez)) as [ | p | p] eqn:E;
    cbn [binary_normalize]; try lia; [reflexivity | apply binary_round_sign].
Qed.

(** ** The status fields *)

Lemma div_half_even_le (n d c : Z) : 0 < d -> n <= c * d -> div_half_even n d <= c.
Proof.
  intros Hd H. unfold div_half_even.
  assert (Hq : n / d <= c) by (apply Z.div_le_upper_bound; lia).
  pose proof (Z.div_mod n d ltac:(lia)) as Hdm.
  pose proof (Z.mod_pos_bound n d Hd) as Hm.
  destruct (Z.eq_dec (n / d) c) as [Heq | Hne].
  - assert (Hr : n mod d = 0) by nia. rewrite Hr.
    destruct (Z.compare_spec (2 * 0) d); lia.
  - destruct (2 * (n mod d) ?= d); [destruct (Z.even (n / d)) | | ]; lia.
Qed.

(** Rounding keeps a number at or below the double before nine at or
    below nine. *)
Lemma round2_not_overdue (x : float) :
  mag_le false x 5066549580791807 (-49) -> mag_le false (round2 x) 5066549580791808 (-49).
Proof.
  intros [-> | (m & e & -> & Cm & Hv)]; [left; reflexivity | ].
  assert (H9 : vle (Zpos m) e 9 0).
  { eapply vle_trans; [exact Hv | ]. unfold vle. apply Z.leb_le. reflexivity. }
  assert (HN : hundredths m e <= 900).
  { unfold hundredths, vle in *. destruct e as [ | p | p].
    - change (Z.min 0 0) with 0 in H9. change (2 ^ (0 - 0)) with 1 in H9. lia.
    - replace (Z.min (Zpos p) 0) with 0 in H9 by lia.
      change (2 ^ (0 - 0)) with 1 in H9. rewrite Z.sub_0_r in H9. lia.
    - replace (Z.min (Zneg p) 0) with (Zneg p) in H9 by lia.
      change (0 - Zneg p) with (Zpos p) in H9. rewrite Z.sub_diag, Z.pow_0_r in H9.
      apply div_half_even_le; [apply pow2_pos; lia | lia]. }
  destruct (round2_finite false m e) as [[-> _] | (n & Hn & ->)]; [left; reflexivity | ].
  change false with (xorb false false) at 1.
  apply SFdiv_upper; [lia | reflexivity | lia | ].
  unfold vle. change (Z.min 0 (-49 + 0)) with (-49).
  change (2 ^ (-49 + 0 - -49)) with 1. change (2 ^ (0 - -49)) with 562949953421312. lia.
Qed.

Lemma fle_mag_le (r : float) (pf : positive) (ef : Z) :
  canonical (Zpos pf) ef -> mag_le false r (Zpos pf) ef ->
  fle r (S754_finite false pf ef) = true.
Proof.
  intros Cf [-> | (m & e & -> & Cm & H)]; [reflexivity | ].
  unfold fle. apply SFleb_canonical; assumption.
Qed.

Lemma fle_negative (r : float) (pf : positive) (ef : Z) :
  has_sign true r -> fle r (S754_finite false pf ef) = true.
Proof. destruct r as [s | s | | s m e]; cbn; intros H; try contradiction; subst; reflexivity. Qed.



(** X2. The two overdue functions raise nothing, whatever they are given:
    making both timestamps aware first keeps the subtraction from the
    TypeError it raises on a naive and an aware operand. *)
Theorem overdue_checks_never_raise {F : Type} (amb : Timezone.ambient)
  (started now : option datetime) (order : Order F) :
  returns (is_order_overdue amb started now) = true
  /\ returns (overdue_status amb order) = true
  /\ (forall a b, Timezone.is_naive a = negb (Timezone.is_naive b) ->
        dt_sub a b = Raise TypeError).
Proof.
  split; [ | split].
  - destruct started as [s | ]; [ | reflexivity].
    destruct now as [n | ].
    + rewrite is_order_overdue_elapsed. reflexivity.
    + change (is_order_overdue amb (Some s) None)
        with (is_order_overdue amb (Some s) (Some (Timezone.clock amb))).
      rewrite is_order_overdue_elapsed. reflexivity.
  - destruct order as [[s | ] f]; [ | reflexivity].
    unfold overdue_status. rewrite get_order_overdue_status_present. reflexivity.
  - intros a b. rewrite !is_naive_tzinfo. unfold dt_sub, same_tzinfo, utcoffset.
    destruct (tzinfo_of a), (tzinfo_of b); cbn; intros H; try discriminate; reflexivity.
Qed.

(** X3. The two float fields of a status are numbers, never NaN; the sign
    bit of hours_elapsed is set exactly when the start lies after the
    reading of the clock, and overdue_by_hours never has its sign bit set:
    it is never negative and never [-0.0]. *)
Theorem overdue_status_signs {F : Type} (amb : Timezone.ambient) (s : datetime) (f : F) :
  exists r,
    overdue_status amb (mk_order (Some s) f) = Ok r
    /\ is_nan (hours_elapsed r) = false
    /\ is_nan (overdue_by_hours r) = false
    /\ signbit (hours_elapsed r) = (elapsed amb s (Timezone.clock amb) <? 0)
    /\ signbit (overdue_by_hours r) = false.
Proof.
  unfold overdue_status. rewrite get_order_overdue_status_present. cbn [fst].
  set (td := elapsed amb s (Timezone.clock amb)).
  exists (status_of td). split; [reflexivity | ].
  assert (H1 : has_sign (td <? 0) (round2 (hours_of td)))
    by (apply round2_sign, hours_of_sign).
  assert (H2 : has_sign false (overdue_by_hours (status_of td))).
  { unfold status_of. cbn [overdue_by_hours].
    destruct (Z.leb_spec nine_hours td) as [H | H]; [ | reflexivity].
    apply round2_sign. rewrite float_of_9. apply fsub_nine_sign.
    destruct td as [ | p | p]; try (unfold nine_hours, us_per_hour, us_per_second in H; lia).
    apply hours_of_overdue. exact H. }
  cbn [status_of hours_elapsed].
  split; [exact (has_sign_not_nan _ _ H1) | split; [exact (has_sign_not_nan _ _ H2) | ]].
  split; [exact (has_sign_signbit _ _ H1) | exact (has_sign_signbit _ _ H2)].
Qed.

(** X4. The rounding of hours_elapsed never contradicts is_overdue
    outright: an overdue order shows at least 9.0 elapsed hours and an
    order that is not overdue shows at most 9.0. *)
Theorem hours_elapsed_side_of_nine {F : Type} (amb : Timezone.ambient)
  (s : datetime) (f : F) :
  exists r,
    overdue_status amb (mk_order (Some s) f) = Ok r
    /\ (if is_overdue r
        then fge (hours_elapsed r) (float_of_Z OVERDUE_THRESHOLD_HOURS)
        else fle (hours_elapsed r) (float_of_Z OVERDUE_THRESHOLD_HOURS)) = true.
Proof.
  unfold overdue_status. rewrite get_order_overdue_status_present. cbn [fst].
  set (td := elapsed amb s (Timezone.clock amb)).
  exists (status_of td). split; [reflexivity | ].
  unfold status_of. cbn [is_overdue hours_elapsed]. rewrite float_of_9. unfold f9.
  destruct (Z.leb_spec nine_hours td) as [H | H].
  - apply fge_mag_ge; [reflexivity | ]. apply round2_overdue.
    destruct td as [ | p | p]; try (unfold nine_hours, us_per_hour, us_per_second in H; lia).
    apply hours_of_overdue. exact H.
  - destruct td as [ | p | p].
    + reflexivity.
    + apply fle_mag_le; [reflexivity | ]. apply round2_not_overdue.
      apply hours_of_not_overdue. exact H.
    + apply fle_negative. apply round2_sign, hours_of_negative.
Qed.


(** ** The first eighteen seconds *)

Lemma hours_of_far_behind (us : positive) :
  eighteen_seconds <= Zpos us ->
  mag_ge false (hours_of (Zpos us)) 5764607523034235 (-60).
Proof.
  intros H. unfold hours_of, total_seconds, Z_truediv, int_truediv.
  rewrite float_of_3600.
  assert (A : mag_ge (xorb false false)
                (SFdiv prec emax (S754_finite false us 0) (S754_finite false 1000000 0))
                5066549580791808 (-48)).
  { apply SFdiv_lower; [lia | reflexivity | ].
    unfold vle. change (Z.min (-48 + 0) 0) with (-48).
    change (2 ^ (-48 + 0 - -48)) with 1. change (2 ^ (0 - -48)) with 281474976710656.
    unfold eighteen_seconds, us_per_second in H. lia. }
  cbn [xorb] in A. destruct A as [-> | (m & e & -> & Cm & Hv)].
  - left. reflexivity.
  - destruct (canonical_next 5066549580791808 (-48) (Zpos m) e) as [[Hm ->] | Hn];
      try lia; try assumption; try reflexivity.
    + injection Hm as ->. right.
      exists 5764607523034235%positive, (-60). split; [reflexivity | split; [reflexivity | ]].
      apply vle_refl.
    + unfold fdiv, f3600. change false with (xorb false false) at 1.
      apply SFdiv_lower; [lia | reflexivity | ].
      eapply vle_trans; [ | exact Hn].
      unfold vle. apply Z.leb_le. reflexivity.
Qed.

Lemma hours_of_near_behind (us : positive) :
  Zpos us < eighteen_seconds ->
  mag_le false (hours_of (Zpos us)) 5764607523034234 (-60).
Proof.
  intros H. unfold hours_of, total_seconds, Z_truediv, int_truediv.
  rewrite float_of_3600.
  assert (A : mag_le (xorb false false)
                (SFdiv prec emax (S754_finite false us 0) (S754_finite false 1000000 0))
                5066549299316832 (-48)).
  { apply SFdiv_upper; [lia | reflexivity | lia | ].
    unfold vle. change (Z.min 0 (-48 + 0)) with (-48).
    change (2 ^ (-48 + 0 - -48)) with 1. change (2 ^ (0 - -48)) with 281474976710656.
    unfold eighteen_seconds, us_per_second in H. lia. }
  cbn [xorb] in A. destruct A as [-> | (m & e & -> & Cm & Hv)].
  - left. reflexivity.
  - unfold fdiv, f3600. change false with (xorb false false) at 1.
    apply SFdiv_upper; [lia | reflexivity | lia | ].
    eapply vle_trans; [exact Hv | ].
    unfold vle. apply Z.leb_le. reflexivity.
Qed.

(** From the double of 0.005 on, a number does not round to zero. *)
Lemma round2_far (s : bool) (x : float) :
  mag_ge s x 5764607523034235 (-60) -> is_zero (round2 x) = false.
Proof.
  intros [-> | (m & e & -> & Cm & Hv)]; [reflexivity | ].
  assert (HN : 1 <= hundredths m e).
  { unfold hundredths. destruct e as [ | p | p].
    - lia.
    - pose proof (pow2_pos (Zpos p) ltac:(lia)). nia.
    - apply div_half_even_pos; [lia | apply pow2_pos; lia | ].
      set (k := Z.min (-60) (Zneg p)).
      apply (proj1 (vle_scale _ _ _ _ k (Z.le_refl _))) in Hv.
      pose proof (pow2_pos (-60 - k) ltac:(lia)) as P1.
      pose proof (pow2_pos (Zneg p - k) ltac:(lia)) as P2.
      assert (E1 : 2 ^ 60 * 2 ^ (-60 - k) = 2 ^ Zpos p * 2 ^ (Zneg p - k)).
      { rewrite <- !pow2_split by lia. f_equal. lia. }
      change (2 ^ 60) with 1152921504606846976 in E1.
      apply (Z.mul_lt_mono_pos_r (2 ^ (Zneg p - k))); [lia | ]. nia. }
  destruct (round2_finite s m e) as [[_ Hz] | (n & Hn & ->)]; [lia | ].
  assert (A : mag_ge (xorb s false)
                (SFdiv prec emax (S754_finite s n 0) (S754_finite false 100 0))
                4503599627370496 (-59)).
  { apply SFdiv_lower; [lia | reflexivity | ].
    unfold vle. change (Z.min (-59 + 0) 0) with (-59).
    change (2 ^ (-59 + 0 - -59)) with 1. change (2 ^ (0 - -59)) with 576460752303423488. lia. }
  destruct A as [-> | (m' & e' & -> & _)]; reflexivity.
Qed.

(** Below the double of 0.005, a number rounds to the zero of its sign. *)
Lemma round2_near (s : bool) (x : float) :
  mag_le s x 5764607523034234 (-60) -> round2 x = S754_zero s.
Proof.
  intros [-> | (m & e & -> & Cm & Hv)]; [reflexivity | ].
  assert (HN : hundredths m e = 0).
  { assert (He : e < 0).
    { pose proof (vle_magnitude (Zpos m) e 5764607523034234 (-60)
                    ltac:(lia) ltac:(lia) Hv) as Hmag.
      change (Zdigits2 5764607523034234) with 53 in Hmag.
      pose proof (Zdigits2_pos (Zpos m) ltac:(lia)). lia. }
    unfold hundredths. destruct e as [ | p | p]; try lia.
    apply div_half_even_zero; [lia | ].
    set (k := Z.min (Zneg p) (-60)).
    apply (proj1 (vle_scale _ _ _ _ k (Z.le_refl _))) in Hv.
    pose proof (pow2_pos (-60 - k) ltac:(lia)) as P1.
    pose proof (pow2_pos (Zneg p - k) ltac:(lia)) as P2.
    assert (E1 : 2 ^ 60 * 2 ^ (-60 - k) = 2 ^ Zpos p * 2 ^ (Zneg p - k)).
    { rewrite <- !pow2_split by lia. f_equal. lia. }
    change (2 ^ 60) with 1152921504606846976 in E1.
    apply (Z.mul_lt_mono_pos_r (2 ^ (Zneg p - k))); [lia | ]. nia. }
  destruct (round2_finite s m e) as [[-> _] | (n & Hn & _)]; [reflexivity | lia].
Qed.

(** X5. hours_elapsed is a zero exactly while the clock is less than
    eighteen seconds away from the start, before or after it: half a
    hundredth of an hour, 0.005, is not a double, and the double the code
    computes for eighteen seconds lies above it. *)
Theorem hours_elapsed_zero_window {F : Type} (amb : Timezone.ambient)
  (s : datetime) (f : F) :
  exists r,
    overdue_status amb (mk_order (Some s) f) = Ok r
    /\ is_zero (hours_elapsed r)
       = (Z.abs (elapsed amb s (Timezone.clock amb)) <? eighteen_seconds).
Proof.
  unfold overdue_status. rewrite get_order_overdue_status_present. cbn [fst].
  set (td := elapsed amb s (Timezone.clock amb)).
  exists (status_of td). split; [reflexivity | ].
  cbn [status_of hours_elapsed].
  destruct td as [ | p | p]; [reflexivity | | ];
    cbn [Z.abs]; destruct (Z.ltb_spec (Zpos p) eighteen_seconds) as [H | H].
  - rewrite (round2_near false) by (apply hours_of_near_behind; exact H). reflexivity.
  - apply (round2_far false). apply hours_of_far_behind. exact H.
  - rewrite (round2_near true) by (apply hours_of_near_ahead; exact H). reflexivity.
  - apply (round2_far true). apply hours_of_far_ahead. exact H.
Qed.

(** ** The estimate and the overdue check *)

Lemma elapsed_same_tzinfo (amb : Timezone.ambient) (a b : datetime) :
  tzinfo_of a = tzinfo_of b -> elapsed amb b a = wall a - wall b.
Proof.
  intros H. unfold elapsed, aware_diff. rewrite !ensure_aware_wall.
  assert (E : same_tzinfo (ensure_aware amb a) (ensure_aware amb b) = true).
  { unfold ensure_aware. rewrite !is_naive_tzinfo, H. unfold same_tzinfo.
    destruct (tzinfo_of b) as [tz | ] eqn:Eb; cbn [Timezone.make_aware tzinfo_of];
      rewrite ?H, ?Eb; apply N.eqb_refl. }
  rewrite E. reflexivity.
Qed.

Lemma estimate_completion_time_default (s : datetime) :
  estimate_completion_time (Some s) None
  = (if in_range (shifted s (9 * us_per_hour))
     then Ok (Some (mk_estimate (shifted s (9 * us_per_hour)) f9 "9h"))
     else Raise OverflowError).
Proof.
  rewrite estimate_completion_time_unfold.
  change (float_of_int (OVERDUE_THRESHOLD_HOURS * 60)) with (Ok (float_of_Z 540)).
  cbn [bind]. change (fdiv (float_of_Z 540) (float_of_Z 60)) with f9.
  change (timedelta_of_hours f9) with (@Ok timedelta (9 * us_per_hour)). cbn [bind].
  destruct (in_range (shifted s (9 * us_per_hour))); reflexivity.
Qed.

(** X6. The default estimate is the overdue threshold: with the end that
    [estimate_completion_time] returns for a start, [is_order_overdue] is
    true at that end and at every later reading of the same clock, false at
    every earlier one, and the status at that end is overdue with 9.0
    elapsed hours and 0.0 hours over. *)
Theorem overdue_from_estimated_end (amb : Timezone.ambient) (s : datetime)
  (r : CompletionEstimate) :
  estimate_completion_time (Some s) None = Ok (Some r) ->
  (forall td, is_order_overdue amb (Some s) (Some (shifted (estimated_end r) td))
              = Ok (0 <=? td))
  /\ is_order_overdue amb (Some s) (Some (estimated_end r)) = Ok true
  /\ overdue_status (Timezone.mk_ambient (Timezone.current_timezone amb) (estimated_end r))
       (mk_order (Some s) tt)
     = Ok (mk_status true f9 (S754_zero false)).
Proof.
  rewrite estimate_completion_time_default.
  destruct (in_range (shifted s (9 * us_per_hour))); [ | discriminate].
  intros H. injection H as <-. cbn [estimated_end].
  split; [ | split].
  - intros td. rewrite is_order_overdue_elapsed, elapsed_same_tzinfo by reflexivity.
    cbn [shifted wall]. f_equal.
    change nine_hours with 32400000000.
    destruct (Z.leb_spec 0 td); [apply Z.leb_le | apply Z.leb_gt]; lia.
  - rewrite is_order_overdue_elapsed, elapsed_shifted. reflexivity.
  - unfold overdue_status. rewrite get_order_overdue_status_present.
    cbn [fst Timezone.clock]. rewrite elapsed_shifted. reflexivity.
Qed.


(** ** What the functions raise *)

Lemma modf_raises (x : float) (e : exn) :
  is_nan x = false -> modf x = Raise e -> e = OverflowError.
Proof. destruct x; cbn; intros Hn H; try discriminate; injection H as <-; reflexivity. Qed.

Lemma modf_fraction_number (x : float) (ip : Z) (fr : float) :
  modf x = Ok (ip, fr) -> is_nan fr = false.
Proof.
  destruct x as [s | s | | s m e]; cbn [modf]; intros H; try discriminate;
    injection H as _ <-; [reflexivity | ].
  unfold frac_finite. destruct e; try reflexivity. apply binary_normalize_number.
Qed.

Lemma new_timedelta_raises (us : Z) (e : exn) :
  new_timedelta us = Raise e -> e = OverflowError.
Proof.
  unfold new_timedelta. destruct (timedelta_ok us); intros H; [discriminate | ].
  injection H as <-. reflexivity.
Qed.

Lemma timedelta_of_hours_raises (h : float) (e : exn) :
  is_nan h = false -> timedelta_of_hours h = Raise e -> e = OverflowError.
Proof.
  intros Hn. unfold timedelta_of_hours.
  destruct (modf h) as [[intpart fracpart] | e1] eqn:M1; cbn [bind].
  - destruct (is_zero fracpart); [apply new_timedelta_raises | ].
    pose proof (modf_fraction_number h intpart fracpart M1) as Hf.
    change (float_of_Z us_per_hour) with (S754_finite false 7549747200000000 (-21)).
    destruct (modf (fmul (S754_finite false 7549747200000000 (-21)) fracpart))
      as [[whole leftover] | e2] eqn:M2; cbn [bind].
    + apply new_timedelta_raises.
    + intros H. injection H as <-.
      apply (modf_raises _ _ (fmul_finite_number_l fracpart false _ _ Hf) M2).
  - intros H. injection H as <-. apply (modf_raises h e1 Hn M1).
Qed.

Lemma format_hours_raises_overflow (h : float) (e : exn) :
  is_nan h = false -> format_hours h = Raise e -> e = OverflowError.
Proof.
  intros Hn. unfold format_hours. destruct (flt h (float_of_Z 0)); [discriminate | ].
  rewrite float_of_60. unfold f60.
  pose proof (fmul_finite_number h false 8444249301319680 (-47) Hn) as Hm.
  destruct (fmul h (S754_finite false 8444249301319680 (-47))) as [s | s | | s m x];
    try discriminate; cbn [int_of_float bind].
  - intros H. injection H as <-. reflexivity.
  - set (tm := cond_Zopp s (trunc_finite m x)).
    destruct ((tm / 60 =? 0) && (tm mod 60 =? 0)); [discriminate | ].
    destruct (tm / 60 =? 0); [discriminate | ]. destruct (tm mod 60 =? 0); discriminate.
Qed.

(** X7. The only exception [estimate_completion_time] raises on a start
    and a number of minutes is OverflowError: no NaN arises on the way, so
    neither the timedelta nor the formatting raises a ValueError. *)
Theorem estimate_completion_time_raises_overflow (started : option datetime)
  (m : option Z) (e : exn) :
  estimate_completion_time started m = Raise e -> e = OverflowError.
Proof.
  destruct started as [s | ]; [ | discriminate].
  unfold estimate_completion_time.
  set (k := match m with None => OVERDUE_THRESHOLD_HOURS * 60 | Some j => j end).
  unfold float_of_int. pose proof (float_of_Z_number k) as Hk.
  assert (Hx : forall x, is_nan x = false ->
            (td <- timedelta_of_hours (fdiv x (float_of_Z 60)) ;;
             estimated_end <- dt_add s td ;;
             text <- format_hours (fdiv x (float_of_Z 60)) ;;
             Ok (Some (mk_estimate estimated_end (fdiv x (float_of_Z 60)) text)))
            = Raise e -> e = OverflowError).
  { intros x Hxn. rewrite float_of_60. unfold f60.
    pose proof (fdiv_finite_number x false 8444249301319680 (-47) Hxn) as Hh.
    destruct (timedelta_of_hours _) as [td | e1] eqn:T; cbn [bind].
    - unfold dt_add. destruct (in_range _); cbn [bind].
      + destruct (format_hours _) as [text | e2] eqn:Fm; cbn [bind]; [discriminate | ].
        intros H. injection H as <-. apply (format_hours_raises_overflow _ _ Hh Fm).
      + intros H. injection H as <-. reflexivity.
    - intros H. injection H as <-. apply (timedelta_of_hours_raises _ _ Hh T). }
  destruct (float_of_Z k) as [sg | sg | | sg mk ek] eqn:Ek; cbn [bind].
  - apply Hx. reflexivity.
  - intros H. injection H as <-. reflexivity.
  - discriminate.
  - apply Hx. reflexivity.
Qed.

(** X8. [format_hours] returns a string on every zero, on the negative
    infinity and on every finite float of magnitude below [2^1013]: the
    product with 60 does not overflow there. *)
Theorem format_hours_returns (s : bool) (m : positive) (e : Z) :
  Zdigits2 (Zpos m) + e <= 1013 ->
  returns (format_hours (S754_finite s m e)) = true
  /\ returns (format_hours (S754_zero s)) = true
  /\ returns (format_hours (S754_infinity true)) = true.
Proof.
  intros Hb. split; [ | split; [destruct s; reflexivity | reflexivity]].
  destruct s; [reflexivity | ].
  unfold format_hours. change (flt (S754_finite false m e) (float_of_Z 0)) with false.
  rewrite float_of_60. unfold f60, fmul. cbn [SFmul xorb].
  set (P := Zpos (m * 8444249301319680)).
  assert (HP : P = Zpos m * 8444249301319680) by apply Pos2Z.inj_mul.
  pose proof (Zdigits2_bounds (Zpos m) ltac:(lia)) as [_ Hu].
  pose proof (Zdigits2_pos (Zpos m) ltac:(lia)) as Hd.
  assert (D1 : 53 <= Zdigits2 P) by (apply Zdigits2_ge; [lia | rewrite HP; lia]).
  assert (D2 : Zdigits2 P <= Zdigits2 (Zpos m) + 53).
  { apply Zdigits2_le; [unfold P; lia | lia | ].
    rewrite pow2_split by lia. rewrite HP.
    assert (8444249301319680 < 2 ^ 53) by reflexivity. nia. }
  assert (Hc : e + -47 <= FE (Zdigits2 P + (e + -47))) by (rewrite FE_eq; lia).
  destruct (binary_round_aux_cases false P (e + -47) loc_Exact ltac:(unfold P; lia) Hc)
    as (m1 & B & _ & T & N & ->).
  set (E := FE (Zdigits2 P + (e + -47))) in *.
  assert (HE : -1074 <= E <= 966) by (unfold E; rewrite FE_eq; lia).
  assert (Hn : -1074 < E -> 2 ^ 52 <= m1) by (intros HE'; specialize (N HE'); lia).
  destruct (round_result_shape false m1 E ltac:(lia) ltac:(lia) Hn)
    as [[-> _] | [[_ [_ Hi]] | (m' & e' & -> & _)]].
  - reflexivity.
  - lia.
  - cbn [int_of_float bind]. set (tm := cond_Zopp false (trunc_finite m' e')).
    destruct ((tm / 60 =? 0) && (tm mod 60 =? 0)); [reflexivity | ].
    destruct (tm / 60 =? 0); [reflexivity | ]. destruct (tm mod 60 =? 0); reflexivity.
Qed.


(** ** The text of an estimate *)

Lemma minutes_shown_one_week : all_from 0 (Z.to_nat (one_week + 1)) minutes_shown = true.
Proof. vm_compute. reflexivity. Qed.

(** X9. For an estimate of up to one week, the end is the start plus the
    given minutes, while the text shows the given minutes or one minute
    less: [int((k / 60.0) * 60)] falls short of [k] where the product
    rounds below it, as at 123 minutes, shown as ["2h 2m"].  Whole hours
    are always shown exactly. *)
Theorem formatted_estimate_within_a_minute (s : datetime) (k : Z)
  (r : CompletionEstimate) :
  0 <= k <= one_week ->
  estimate_completion_time (Some s) (Some k) = Ok (Some r) ->
  estimated_end r = shifted s (k * us_per_minute)
  /\ (formatted r = render_duration (k / 60) (k mod 60)
      \/ formatted r = render_duration ((k - 1) / 60) ((k - 1) mod 60))
  /\ (k mod 60 = 0 -> formatted r = render_duration (k / 60) 0).
Proof.
  intros Hk H.
  pose proof (all_from_spec minutes_exact _ 0 minutes_exact_one_week k) as Hc.
  pose proof (all_from_spec minutes_shown _ 0 minutes_shown_one_week k) as Hs.
  rewrite Z2Nat.id in Hc, Hs by (unfold one_week; lia).
  specialize (Hc ltac:(lia)). specialize (Hs ltac:(lia)).
  unfold minutes_exact in Hc. unfold minutes_shown in Hs.
  rewrite estimate_completion_time_unfold in H.
  assert (Hx : float_of_int k = Ok (float_of_Z k)).
  { unfold float_of_int. destruct (float_of_Z k) eqn:Ef; try reflexivity.
    rewrite float_of_60 in Hc. discriminate Hc. }
  rewrite Hx in H. cbn [bind] in H.
  destruct (timedelta_of_hours (fdiv (float_of_Z k) (float_of_Z 60))) as [td | e];
    [ | discriminate].
  apply andb_true_iff in Hc. destruct Hc as [Htd _]. apply Z.eqb_eq in Htd. subst td.
  cbn [bind] in H. destruct (in_range _); [ | discriminate].
  destruct (format_hours (fdiv (float_of_Z k) (float_of_Z 60))) as [text | e];
    [ | discriminate].
  cbn [bind] in H. injection H as <-. cbn [estimated_end formatted].
  apply andb_true_iff in Hs. destruct Hs as [H1 H2].
  split; [reflexivity | split].
  - apply orb_true_iff in H1. destruct H1 as [H1 | H1]; apply String.eqb_eq in H1; auto.
  - intros Hm. apply Z.eqb_eq in Hm. rewrite Hm in H2. cbn [implb] in H2.
    apply String.eqb_eq in H2. exact H2.
Qed.


(** ** The rendering tells durations apart *)

Lemma str_of_int_inj (a b : Z) : str_of_int a = str_of_int b -> a = b.
Proof.
  unfold str_of_int. intros H. apply DecimalZ.to_int_inj.
  assert (N : forall n, Z.to_int n <> Decimal.Pos Decimal.Nil
                        /\ Z.to_int n <> Decimal.Neg Decimal.Nil).
  { intros [ | p | p]; cbn; split; try discriminate; intros E; injection E;
      apply DecimalPos.Unsigned.to_uint_nonnil. }
  pose proof (NilZero.isi (Z.to_int a) (proj1 (N a)) (proj2 (N a))) as Ha.
  pose proof (NilZero.isi (Z.to_int b) (proj1 (N b)) (proj2 (N b))) as Hb.
  rewrite H in Ha. rewrite Ha in Hb. injection Hb as Hb. exact Hb.
Qed.

Lemma string_of_uint_digits (d : Decimal.uint) :
  digits_only (NilEmpty.string_of_uint d) = true.
Proof. induction d; cbn; auto. Qed.

Lemma str_of_int_digits (n : Z) : 0 <= n -> digits_only (str_of_int n) = true.
Proof.
  unfold str_of_int. destruct n as [ | p | p]; try lia; intros _; [reflexivity | ].
  cbn [Z.to_int NilZero.string_of_int]. unfold NilZero.string_of_uint.
  destruct (Pos.to_uint p) eqn:E; try reflexivity; rewrite <- E; apply string_of_uint_digits.
Qed.

(** A run of digits ends at the first character that is not one. *)
Lemma digits_then_other (x x' r r' : string) (c c' : ascii) :
  digits_only x = true -> digits_only x' = true ->
  is_digit c = false -> is_digit c' = false ->
  (x ++ String c r = x' ++ String c' r')%string ->
  x = x' /\ c = c' /\ r = r'.
Proof.
  revert x'. induction x as [ | a x IH]; intros x' Hx Hx' Hc Hc' H.
  - destruct x' as [ | a' x'].
    + cbn in H. injection H as -> ->. repeat split.
    + cbn in H, Hx'. injection H as -> _. apply andb_true_iff in Hx'. destruct Hx' as [Hd _].
      congruence.
  - destruct x' as [ | a' x'].
    + cbn in H, Hx. injection H as -> _. apply andb_true_iff in Hx. destruct Hx as [Hd _].
      congruence.
    + cbn in H, Hx, Hx'. injection H as -> H.
      apply andb_true_iff in Hx. apply andb_true_iff in Hx'.
      destruct (IH x' (proj2 Hx) (proj2 Hx') Hc Hc' H) as (-> & -> & ->). repeat split.
Qed.

Lemma render_duration_shape (hp mp : Z) :
  0 <= hp -> 0 <= mp ->
  exists a c r,
    render_duration hp mp = (str_of_int a ++ String c r)%string
    /\ 0 <= a /\ is_digit c = false
    /\ ((hp = 0 /\ mp = 0 /\ a = 0 /\ c = "h"%char /\ r = EmptyString)
        \/ (hp = 0 /\ mp <> 0 /\ a = mp /\ c = "m"%char /\ r = EmptyString)
        \/ (hp <> 0 /\ mp = 0 /\ a = hp /\ c = "h"%char /\ r = EmptyString)
        \/ (hp <> 0 /\ mp <> 0 /\ a = hp /\ c = "h"%char
            /\ r = String " " (str_of_int mp ++ String "m" EmptyString))%string).
Proof.
  intros Hh Hm. unfold render_duration.
  destruct (Z.eqb_spec hp 0) as [-> | Nh], (Z.eqb_spec mp 0) as [-> | Nm].
  - exists 0, "h"%char, EmptyString. split; [reflexivity | ].
    split; [lia | split; [reflexivity | ]]. left. repeat split.
  - exists mp, "m"%char, EmptyString. split; [reflexivity | ].
    split; [lia | split; [reflexivity | ]]. right. left. repeat split; auto.
  - exists hp, "h"%char, EmptyString. split; [reflexivity | ].
    split; [lia | split; [reflexivity | ]]. right. right. left. repeat split; auto.
  - exists hp, "h"%char, (String " " (str_of_int mp ++ String "m" EmptyString))%string.
    split; [reflexivity | ].
    split; [lia | split; [reflexivity | ]]. right. right. right. repeat split; auto.
Qed.

Lemma render_duration_inj (hp mp hp' mp' : Z) :
  0 <= hp -> 0 <= mp -> 0 <= hp' -> 0 <= mp' ->
  render_duration hp mp = render_duration hp' mp' -> hp = hp' /\ mp = mp'.
Proof.
  intros Hh Hm Hh' Hm' H.
  destruct (render_duration_shape hp mp Hh Hm) as (a & c & r & E & Ha & Hc & S).
  destruct (render_duration_shape hp' mp' Hh' Hm') as (a' & c' & r' & E' & Ha' & Hc' & S').
  rewrite E, E' in H.
  destruct (digits_then_other _ _ _ _ _ _ (str_of_int_digits a Ha) (str_of_int_digits a' Ha')
              Hc Hc' H) as (Hs & -> & ->).
  apply str_of_int_inj in Hs. subst a'.
  destruct S as [S | [S | [S | S]]], S' as [S' | [S' | [S' | S']]];
    destruct S as (? & ? & ? & ? & Hr), S' as (? & ? & ? & ? & Hr');
    subst; try discriminate; try lia; try (split; reflexivity).
  injection Hr' as Hr'.
  destruct (digits_then_other (str_of_int mp) (str_of_int mp') EmptyString EmptyString
              "m"%char "m"%char (str_of_int_digits mp Hm) (str_of_int_digits mp' Hm')
              eq_refl eq_refl Hr') as (Hs & _ & _).
  apply str_of_int_inj in Hs. split; [reflexivity | exact Hs].
Qed.

Lemma format_hours_minutes (h : float) (tm : Z) :
  flt h (float_of_Z 0) = false ->
  int_of_float (fmul h (float_of_Z 60)) = Ok tm ->
  0 <= tm /\ format_hours h = Ok (render_duration (tm / 60) (tm mod 60)).
Proof.
  intros Hlt Hi.
  assert (Hpos : 0 <= tm).
  { destruct (fmul h (float_of_Z 60)) as [s | s | | s m e] eqn:Hm; try discriminate.
    - injection Hi as <-. lia.
    - rewrite (minutes_sign h s m e Hlt Hm) in Hi. injection Hi as <-.
      apply trunc_finite_nonneg. }
  split; [exact Hpos | ].
  unfold format_hours. rewrite Hlt, Hi. cbn [bind]. unfold render_duration.
  destruct (tm / 60 =? 0), (tm mod 60 =? 0); reflexivity.
Qed.

(** X10. Two durations that [format_hours] renders alike have the same
    whole minutes: leaving out a part that is zero makes no two texts
    collide. *)
Theorem format_hours_text_determines_minutes (h1 h2 : float) (tm1 tm2 : Z) :
  flt h1 (float_of_Z 0) = false ->
  flt h2 (float_of_Z 0) = false ->
  int_of_float (fmul h1 (float_of_Z 60)) = Ok tm1 ->
  int_of_float (fmul h2 (float_of_Z 60)) = Ok tm2 ->
  format_hours h1 = format_hours h2 ->
  tm1 = tm2.
Proof.
  intros L1 L2 I1 I2 H.
  destruct (format_hours_minutes h1 tm1 L1 I1) as [P1 E1].
  destruct (format_hours_minutes h2 tm2 L2 I2) as [P2 E2].
  rewrite E1, E2 in H. injection H as H.
  pose proof (Z.mod_pos_bound tm1 60 ltac:(lia)).
  pose proof (Z.mod_pos_bound tm2 60 ltac:(lia)).
  apply render_duration_inj in H;
    try (apply Z.div_pos; lia); try lia.
  destruct H as [Hq Hr].
  rewrite (Z.div_mod tm1 60), (Z.div_mod tm2 60) by lia. lia.
Qed.

(** * Worked examples *)

(** After 8 h 59 min 45.6 s (8.996 hours) the status reports 9.0 elapsed
    hours and is not overdue: is_overdue is not [hours_elapsed >= 9].
    After 9 h 4 min 12 s (9.07 hours) overdue_by_hours is 0.07, which is
    not [hours_elapsed - 9]. *)
Example overdue_status_rounding_gap :
  overdue_status (amb_after 32385600000) (mk_order (Some midnight) tt)
  = Ok (mk_status false f9 (S754_zero false))
  /\ fge f9 (float_of_Z OVERDUE_THRESHOLD_HOURS) = true
  /\ overdue_status (amb_after 32652000000) (mk_order (Some midnight) tt)
     = Ok (mk_status true f9_07 f0_07)
  /\ fsub f9_07 (float_of_Z OVERDUE_THRESHOLD_HOURS)
     = S754_finite false 5044031582654976 (-56).
Proof. vm_compute. repeat split. Qed.

(** One second before the start the elapsed hours are [-0.0], which is
    not below zero. *)
Example overdue_status_negative_zero :
  overdue_status (amb_after (-1000000)) (mk_order (Some midnight) tt)
  = Ok (mk_status false (S754_zero true) (S754_zero false))
  /\ flt (S754_zero true) (float_of_Z 0) = false.
Proof. vm_compute. split; reflexivity. Qed.

(** A naive start and an aware now, run under two current time zones:
    8 h 30 min elapsed under UTC, 9 h 30 min under UTC+1. *)
Example run_depends_on_current_timezone :
  run (Timezone.mk_ambient utc midnight)
      (Call_is_order_overdue (Some (civil 2024 1 1 0 0 0 None))
                             (civil 2024 1 1 8 30 0 (Some utc)))
  = Out_overdue (Ok false)
  /\ run (Timezone.mk_ambient (fixed_offset 1 us_per_hour) midnight)
         (Call_is_order_overdue (Some (civil 2024 1 1 0 0 0 None))
                                (civil 2024 1 1 8 30 0 (Some utc)))
     = Out_overdue (Ok true).
Proof. vm_compute. split; reflexivity. Qed.

(** An order started in New York on 2024-03-09 at 23:00.  At 08:00 the
    next morning, after the clocks went forward, eight hours have passed;
    the start and this now carry one [tzinfo] object, the subtraction goes
    by wall clock and gives nine, and the order is overdue.  Half an hour
    later, with now given in UTC, the subtraction goes by the instants and
    gives eight hours and a half: the order is no longer overdue. *)
Example is_order_overdue_not_monotone :
  dt_le (civil 2024 3 10 8 0 0 (Some new_york)) (civil 2024 3 10 12 30 0 (Some utc)) = Ok true
  /\ dt_le (ensure_aware (amb_after 0) (civil 2024 3 10 8 0 0 (Some new_york)))
           (ensure_aware (amb_after 0) (civil 2024 3 10 12 30 0 (Some utc))) = Ok true
  /\ is_order_overdue (amb_after 0) (Some (civil 2024 3 9 23 0 0 (Some new_york)))
       (Some (civil 2024 3 10 8 0 0 (Some new_york))) = Ok true
  /\ is_order_overdue (amb_after 0) (Some (civil 2024 3 9 23 0 0 (Some new_york)))
       (Some (civil 2024 3 10 12 30 0 (Some utc))) = Ok false
  /\ instant (civil 2024 3 10 12 30 0 (Some utc))
     - instant (civil 2024 3 10 8 0 0 (Some new_york)) = 30 * us_per_minute
  /\ compatible (amb_after 0) (civil 2024 3 9 23 0 0 (Some new_york))
       (civil 2024 3 10 8 0 0 (Some new_york)) (civil 2024 3 10 12 30 0 (Some utc)) = false.
Proof. vm_compute. repeat split. Qed.


(** A NaN and the positive infinity are floats [format_hours] raises on. *)
Example format_hours_raises :
  format_hours S754_nan = Raise ValueError
  /\ format_hours (S754_infinity false) = Raise OverflowError.
Proof. split; reflexivity. Qed.

(** Nine and ten hours after the start, read in UTC; and three naive
    timestamps of the zone whose clocks go forward, nine wall-clock hours
    and half an hour more after the start. *)
Lemma is_order_overdue_monotone_witness :
  (compatible (amb_after 0) midnight (shifted midnight (9 * us_per_hour))
     (shifted midnight (10 * us_per_hour)) = true
   /\ dt_le (ensure_aware (amb_after 0) (shifted midnight (9 * us_per_hour)))
            (ensure_aware (amb_after 0) (shifted midnight (10 * us_per_hour))) = Ok true
   /\ is_order_overdue (amb_after 0) (Some midnight) (Some (shifted midnight (9 * us_per_hour)))
      = Ok true
   /\ is_order_overdue (amb_after 0) (Some midnight) (Some (shifted midnight (10 * us_per_hour)))
      = Ok true)
  /\ (Timezone.is_naive (civil 2024 3 9 23 0 0 None) = true
      /\ Timezone.is_naive (civil 2024 3 10 8 0 0 None) = true
      /\ Timezone.is_naive (civil 2024 3 10 8 30 0 None) = true
      /\ dt_le (civil 2024 3 10 8 0 0 None) (civil 2024 3 10 8 30 0 None) = Ok true
      /\ is_order_overdue (Timezone.mk_ambient new_york midnight)
           (Some (civil 2024 3 9 23 0 0 None)) (Some (civil 2024 3 10 8 0 0 None)) = Ok true
      /\ is_order_overdue (Timezone.mk_ambient new_york midnight)
           (Some (civil 2024 3 9 23 0 0 None)) (Some (civil 2024 3 10 8 30 0 None)) = Ok true).
Proof.
  assert (C : compatible (amb_after 0) midnight (shifted midnight (9 * us_per_hour))
                (shifted midnight (10 * us_per_hour)) = true) by reflexivity.
  assert (H1 : is_order_overdue (amb_after 0) (Some midnight)
                 (Some (shifted midnight (9 * us_per_hour))) = Ok true)
    by (vm_compute; reflexivity).
  assert (H2 : dt_le (ensure_aware (amb_after 0) (shifted midnight (9 * us_per_hour)))
                 (ensure_aware (amb_after 0) (shifted midnight (10 * us_per_hour))) = Ok true)
    by (vm_compute; reflexivity).
  assert (N0 : Timezone.is_naive (civil 2024 3 9 23 0 0 None) = true) by reflexivity.
  assert (N1 : Timezone.is_naive (civil 2024 3 10 8 0 0 None) = true) by reflexivity.
  assert (N2 : Timezone.is_naive (civil 2024 3 10 8 30 0 None) = true) by reflexivity.
  assert (L : dt_le (civil 2024 3 10 8 0 0 None) (civil 2024 3 10 8 30 0 None) = Ok true)
    by (vm_compute; reflexivity).
  assert (K : is_order_overdue (Timezone.mk_ambient new_york midnight)
                (Some (civil 2024 3 9 23 0 0 None)) (Some (civil 2024 3 10 8 0 0 None))
              = Ok true) by (vm_compute; reflexivity).
  split.
  - split; [exact C | split; [exact H2 | split; [exact H1 | ]]].
    exact (proj1 (is_order_overdue_monotone (amb_after 0) midnight
                    (shifted midnight (9 * us_per_hour))
                    (shifted midnight (10 * us_per_hour))) C H2 H1).
  - split; [exact N0 | split; [exact N1 | split; [exact N2 | split; [exact L | ]]]].
    split; [exact K | ].
    exact (proj2 (is_order_overdue_monotone (Timezone.mk_ambient new_york midnight)
                    (civil 2024 3 9 23 0 0 None) (civil 2024 3 10 8 0 0 None)
                    (civil 2024 3 10 8 30 0 None)) N0 N1 N2 L K).
Defined.

(** A start one minute after the reading of the clock. *)
Lemma overdue_status_future_start_witness :
  elapsed (amb_after (-60000000)) midnight (Timezone.clock (amb_after (-60000000))) < 0
  /\ overdue_status (amb_after (-60000000)) (mk_order (Some midnight) tt)
     = Ok (mk_status false
             (round2 (hours_of (elapsed (amb_after (-60000000)) midnight
                                  (Timezone.clock (amb_after (-60000000))))))
             (S754_zero false)).
Proof.
  assert (H : elapsed (amb_after (-60000000)) midnight
                (Timezone.clock (amb_after (-60000000))) < 0) by reflexivity.
  split; [exact H | ].
  exact (proj1 (overdue_status_future_start (amb_after (-60000000)) midnight tt H)).
Defined.

(** The default estimate of the order started at midnight. *)
Lemma estimate_completion_time_keeps_tzinfo_witness :
  estimate_completion_time (Some midnight) None
  = Ok (Some (mk_estimate (shifted midnight (9 * us_per_hour)) f9 "9h"))
  /\ tzinfo_of (shifted midnight (9 * us_per_hour)) = tzinfo_of midnight.
Proof.
  assert (H : estimate_completion_time (Some midnight) None
              = Ok (Some (mk_estimate (shifted midnight (9 * us_per_hour)) f9 "9h")))
    by (vm_compute; reflexivity).
  split; [exact H | ].
  exact (proj1 (estimate_completion_time_keeps_tzinfo midnight None _ H)).
Defined.


(** Two naive timestamps under two time zones and two clocks. *)
Lemma run_deterministic_witness :
  zone_free (Call_is_order_overdue (Some (civil 2024 1 1 0 0 0 None))
                                   (civil 2024 1 1 9 30 0 None)) = true
  /\ run (Timezone.mk_ambient utc midnight)
         (Call_is_order_overdue (Some (civil 2024 1 1 0 0 0 None)) (civil 2024 1 1 9 30 0 None))
     = run (Timezone.mk_ambient (fixed_offset 1 (2 * us_per_hour)) last_evening)
         (Call_is_order_overdue (Some (civil 2024 1 1 0 0 0 None)) (civil 2024 1 1 9 30 0 None)).
Proof.
  assert (H : zone_free (Call_is_order_overdue (Some (civil 2024 1 1 0 0 0 None))
                           (civil 2024 1 1 9 30 0 None)) = true) by reflexivity.
  split; [exact H | ].
  exact (proj2 (proj2 (proj2 (run_deterministic utc midnight midnight
           (Call_is_order_overdue (Some (civil 2024 1 1 0 0 0 None))
              (civil 2024 1 1 9 30 0 None)))))
           (Timezone.mk_ambient utc midnight)
           (Timezone.mk_ambient (fixed_offset 1 (2 * us_per_hour)) last_evening) H).
Defined.

(** ** Instances of the further properties *)

(** A naive start against an aware clock: the subtraction alone raises,
    the overdue check does not. *)
Lemma overdue_checks_never_raise_witness :
  Timezone.is_naive (civil 2024 1 1 0 0 0 None) = negb (Timezone.is_naive midnight)
  /\ dt_sub midnight (civil 2024 1 1 0 0 0 None) = Raise TypeError
  /\ returns (is_order_overdue (amb_after 0) (Some (civil 2024 1 1 0 0 0 None))
                (Some midnight)) = true.
Proof.
  assert (H : Timezone.is_naive (civil 2024 1 1 0 0 0 None)
              = negb (Timezone.is_naive midnight)) by reflexivity.
  pose proof (overdue_checks_never_raise (amb_after 0)
                (Some (civil 2024 1 1 0 0 0 None)) (Some midnight)
                (mk_order (Some midnight) tt)) as (H1 & _ & H3).
  split; [exact H | split; [ | exact H1]].
  apply (H3 midnight (civil 2024 1 1 0 0 0 None)). symmetry.
  rewrite H. destruct (Timezone.is_naive midnight); reflexivity.
Defined.

(** The order started at midnight is overdue from 09:00 on. *)
Lemma overdue_from_estimated_end_witness :
  estimate_completion_time (Some midnight) None
  = Ok (Some (mk_estimate (shifted midnight (9 * us_per_hour)) f9 "9h"))
  /\ is_order_overdue (amb_after 0) (Some midnight)
       (Some (shifted (shifted midnight (9 * us_per_hour)) (-1))) = Ok false
  /\ is_order_overdue (amb_after 0) (Some midnight)
       (Some (shifted midnight (9 * us_per_hour))) = Ok true.
Proof.
  assert (H : estimate_completion_time (Some midnight) None
              = Ok (Some (mk_estimate (shifted midnight (9 * us_per_hour)) f9 "9h")))
    by (vm_compute; reflexivity).
  pose proof (overdue_from_estimated_end (amb_after 0) midnight _ H) as (H1 & H2 & _).
  split; [exact H | split; [exact (H1 (-1)) | exact H2]].
Defined.

(** The estimate for the last hour of year 9999 raises, and what it raises
    is OverflowError. *)
Lemma estimate_completion_time_raises_overflow_witness :
  exists e,
    estimate_completion_time (Some last_evening) None = Raise e
    /\ e = OverflowError.
Proof.
  assert (H : estimate_completion_time (Some last_evening) None = Raise OverflowError)
    by (vm_compute; reflexivity).
  exists OverflowError. split; [exact H | ].
  exact (estimate_completion_time_raises_overflow (Some last_evening) None OverflowError H).
Defined.

(** One hour and a half. *)
Lemma format_hours_returns_witness :
  Zdigits2 (Zpos 6755399441055744) + -51 <= 1013
  /\ returns (format_hours (S754_finite false 6755399441055744 (-51))) = true.
Proof.
  assert (H : Zdigits2 (Zpos 6755399441055744) + -51 <= 1013)
    by (apply Z.leb_le; reflexivity).
  split; [exact H | ].
  exact (proj1 (format_hours_returns false 6755399441055744 (-51) H)).
Defined.

(** An estimate of 123 minutes ends 123 minutes after the start and reads
    two hours and two minutes. *)
Lemma formatted_estimate_within_a_minute_witness :
  0 <= 123 <= one_week
  /\ estimate_completion_time (Some midnight) (Some 123)
     = Ok (Some (mk_estimate (shifted midnight (123 * us_per_minute))
                   (fdiv (float_of_Z 123) (float_of_Z 60)) "2h 2m"))
  /\ ("2h 2m"%string = render_duration (123 / 60) (123 mod 60)
      \/ "2h 2m"%string = render_duration ((123 - 1) / 60) ((123 - 1) mod 60)).
Proof.
  assert (Hk : 0 <= 123 <= one_week) by (unfold one_week; lia).
  assert (H : estimate_completion_time (Some midnight) (Some 123)
              = Ok (Some (mk_estimate (shifted midnight (123 * us_per_minute))
                            (fdiv (float_of_Z 123) (float_of_Z 60)) "2h 2m")))
    by (vm_compute; reflexivity).
  split; [exact Hk | split; [exact H | ]].
  exact (proj1 (proj2 (formatted_estimate_within_a_minute midnight 123 _ Hk H))).
Defined.

(** 2.05 hours and 122 minutes read alike, and both hold 122 whole
    minutes. *)
Lemma format_hours_text_determines_minutes_witness :
  flt (fdiv (float_of_Z 123) (float_of_Z 60)) (float_of_Z 0) = false
  /\ flt (fdiv (float_of_Z 122) (float_of_Z 60)) (float_of_Z 0) = false
  /\ format_hours (fdiv (float_of_Z 123) (float_of_Z 60))
     = format_hours (fdiv (float_of_Z 122) (float_of_Z 60))
  /\ exists tm1 tm2,
       int_of_float (fmul (fdiv (float_of_Z 123) (float_of_Z 60)) (float_of_Z 60)) = Ok tm1
       /\ int_of_float (fmul (fdiv (float_of_Z 122) (float_of_Z 60)) (float_of_Z 60)) = Ok tm2
       /\ tm1 = tm2.
Proof.
  assert (L1 : flt (fdiv (float_of_Z 123) (float_of_Z 60)) (float_of_Z 0) = false)
    by reflexivity.
  assert (L2 : flt (fdiv (float_of_Z 122) (float_of_Z 60)) (float_of_Z 0) = false)
    by reflexivity.
  assert (I1 : int_of_float (fmul (fdiv (float_of_Z 123) (float_of_Z 60)) (float_of_Z 60))
               = Ok 122) by (vm_compute; reflexivity).
  assert (I2 : int_of_float (fmul (fdiv (float_of_Z 122) (float_of_Z 60)) (float_of_Z 60))
               = Ok 122) by (vm_compute; reflexivity).
  assert (E : format_hours (fdiv (float_of_Z 123) (float_of_Z 60))
              = format_hours (fdiv (float_of_Z 122) (float_of_Z 60)))
    by (vm_compute; reflexivity).
  split; [exact L1 | split; [exact L2 | split; [exact E | ]]].
  exists 122, 122. split; [exact I1 | split; [exact I2 | ]].
  exact (format_hours_text_determines_minutes _ _ 122 122 L1 L2 I1 I2 E).
Defined.
